(** * el-toggl: the Toggl synchronisation layer and the booking form

    A shallow embedding of [src/services/toggl/TogglService.ts] together with
    the date helpers and the [CreateEntry] commit logic it cooperates with.

    Conventions of the embedding.
    - A JavaScript [Date] is its time value: a [Z] counting milliseconds of
      local wall-clock time since the epoch.  The timestamps handled here come
      from the remote's ISO-8601 strings or from the form's day, so the
      [Invalid Date] object is represented only where a helper produces it
      from free text ([combineDateWithTime] returns [None]).
    - [number] is [Z]; a property that may be missing is an [option]; a JSON
      property that may be present with value [null] carries a [Json_string].
    - An [async] method is a computation in [Eff World]: it threads the two
      process-wide stores and the trace of issued requests, and ends either
      with a value (the promise fulfils) or with an error (it rejects).
    - What the platform supplies ([Date] parsing, [localeCompare]) and the
      formatter of [services/date] whose output format is not fixed here are
      the fields of the class [Runtime]. *)

From Stdlib Require Import ZArith List String Ascii Bool Lia Sorted Permutation.
Import ListNotations.
Local Open Scope Z_scope.

(** ** Domain types ([src/types]) *)

Definition Date := Z.

Module Client.
Record t := { id : Z; name : string }.
End Client.

Module Workspace.
Record t := { id : Z }.
End Workspace.

Module Project.
Record t := {
  client : option Client.t;
  color : string;
  id : Z;
  name : string;
  workspace : Workspace.t }.
End Project.

(** [project] is typed [Project] in the source, but [mapTimeEntry] fills it
    with the result of [Array.prototype.find], which is [undefined] on a miss:
    hence the [option]. *)
Module TimeEntry.
Record t := {
  description : string;
  duration : Z;
  id : Z;
  project : option Project.t;
  start : Date;
  stop : option Date }.
Definition set_stop (item : t) (d : Date) : t :=
  {| description := description item; duration := duration item; id := id item;
     project := project item; start := start item; stop := Some d |}.
End TimeEntry.

(** ** Wire types ([src/services/toggl/types]) *)

(** The value found under a string-typed JSON key: [null] or a string. *)
Inductive Json_string :=
| JNull
| JString (s : string).

Module TogglClient.
Record t := { id : Z; name : string }.
End TogglClient.

Module TogglProject.
Record t := {
  workspace_id : Z;
  client_id : Z;
  color : string;
  id : Z;
  name : string }.
End TogglProject.

(** [stop = None]: the record has no [stop] key; [Some JNull]: the key is
    there with value [null]; [Some (JString s)]: the key holds a string. *)
Module TogglTimeEntry.
Record t := {
  description : string;
  duration : Z;
  id : Z;
  project_id : Z;
  start : string;
  stop : option Json_string }.
End TogglTimeEntry.

(** ** The process-wide stores ([src/store]) *)

Module TogglStore.
Record t := { clients : list Client.t; projects : list Project.t }.
Definition set_clients (v : list Client.t) (s : t) : t :=
  {| clients := v; projects := projects s |}.
Definition set_projects (v : list Project.t) (s : t) : t :=
  {| clients := clients s; projects := v |}.
End TogglStore.

(** The five fields [fetchActiveTimeEntry] assigns, and the stop time of the
    draft, which it never mentions. *)
Module TimeBookingStore.
Record t := {
  day : Date;
  description : string;
  start : string;
  stop : option string;
  entry : option TimeEntry.t;
  projectId : option Z }.
Definition set_day (v : Date) (s : t) : t :=
  {| day := v; description := description s; start := start s; stop := stop s;
     entry := entry s; projectId := projectId s |}.
Definition set_description (v : string) (s : t) : t :=
  {| day := day s; description := v; start := start s; stop := stop s;
     entry := entry s; projectId := projectId s |}.
Definition set_start (v : string) (s : t) : t :=
  {| day := day s; description := description s; start := v; stop := stop s;
     entry := entry s; projectId := projectId s |}.
Definition set_entry (v : TimeEntry.t) (s : t) : t :=
  {| day := day s; description := description s; start := start s; stop := stop s;
     entry := Some v; projectId := projectId s |}.
Definition set_projectId (v : Z) (s : t) : t :=
  {| day := day s; description := description s; start := start s; stop := stop s;
     entry := entry s; projectId := Some v |}.
End TimeBookingStore.

(** ** Requests and responses (axios) *)

(** The paths the service builds, with the numbers of their template strings. *)
Inductive Endpoint :=
| WorkspaceClients (workspaceId : Z)
| WorkspaceProjects (workspaceId : Z)
| MeTimeEntriesCurrent
| MeTimeEntries
| WorkspaceTimeEntry (workspaceId entryId : Z).

Inductive Request :=
| GET (url : Endpoint) (params : list (string * string))
| PUT (url : Endpoint) (body : TimeEntry.t).

Inductive Failure :=
| NetworkError
| BadStatus (code : Z).

(** What awaiting an axios call gives: a response whose [data] may be [null],
    or a rejection (no answer, or a status outside 2xx). *)
Inductive HttpResult (A : Type) :=
| Fulfilled (data : option A)
| Rejected (reason : Failure).
Arguments Fulfilled {A} data.
Arguments Rejected {A} reason.

(** ** Effects *)

Inductive Error :=
| TypeError
| AxiosError (reason : Failure).

Inductive Outcome (A : Type) :=
| Returned (value : A)
| Thrown (err : Error).
Arguments Returned {A} value.
Arguments Thrown {A} err.

Definition Eff (S A : Type) : Type := S -> Outcome A * S.

Definition ret {S A} (a : A) : Eff S A := fun s => (Returned a, s).

Definition throw {S A} (e : Error) : Eff S A := fun s => (Thrown e, s).

Definition bind {S A B} (c : Eff S A) (k : A -> Eff S B) : Eff S B :=
  fun s =>
    match c s with
    | (Returned a, s') => k a s'
    | (Thrown e, s') => (Thrown e, s')
    end.

(** [try { c } catch { h }]: what [c] did to the state before throwing stays. *)
Definition tryCatch {S A} (c : Eff S A) (h : Eff S A) : Eff S A :=
  fun s =>
    match c s with
    | (Returned a, s') => (Returned a, s')
    | (Thrown _, s') => h s'
    end.

Definition modify {S} (f : S -> S) : Eff S unit := fun s => (Returned tt, f s).

(** Reading a property of a value that may be [undefined]. *)
Definition deref {S A} (o : option A) : Eff S A :=
  match o with
  | Some a => ret a
  | None => throw TypeError
  end.

Declare Scope eff_scope.
Delimit Scope eff_scope with eff.
Notation "x <- c1 ;; c2" := (bind c1 (fun x => c2))
  (at level 61, c1 at next level, right associativity) : eff_scope.
Notation "c1 ;; c2" := (bind c1 (fun _ => c2))
  (at level 61, right associativity) : eff_scope.
Local Open Scope eff_scope.

Record World := {
  togglStore : TogglStore.t;
  timeBookingStore : TimeBookingStore.t;
  issued : list Request }.

Definition TogglStore_getRawState : Eff World TogglStore.t :=
  fun w => (Returned (togglStore w), w).

(** [Store.update] runs the updater on a draft of the current state; the draft
    replaces the state when the updater returns, and is dropped, the error
    passing on to the caller, when it throws. *)
Definition TogglStore_update (updater : Eff TogglStore.t unit) : Eff World unit :=
  fun w =>
    match updater (togglStore w) with
    | (Returned _, s') =>
        (Returned tt,
         {| togglStore := s'; timeBookingStore := timeBookingStore w; issued := issued w |})
    | (Thrown e, _) => (Thrown e, w)
    end.

Definition TimeBookingStore_update (updater : Eff TimeBookingStore.t unit) : Eff World unit :=
  fun w =>
    match updater (timeBookingStore w) with
    | (Returned _, s') =>
        (Returned tt,
         {| togglStore := togglStore w; timeBookingStore := s'; issued := issued w |})
    | (Thrown e, _) => (Thrown e, w)
    end.

(** [await this.ax.get(...)] / [await this.ax.put(...)]: the request goes out
    (it is appended to the trace) and the remote's answer decides between a
    value and a rejection. *)
Definition await {A} (ax : Request -> HttpResult A) (req : Request) : Eff World (option A) :=
  fun w =>
    let w' := {| togglStore := togglStore w; timeBookingStore := timeBookingStore w;
                 issued := issued w ++ [req] |} in
    match ax req with
    | Fulfilled data => (Returned data, w')
    | Rejected reason => (Thrown (AxiosError reason), w')
    end.

(** ** [Array.prototype.sort] with a comparator

    The sort is stable, and for a consistent comparator the sorted order is
    then unique; it is computed here by inserting the elements one after the
    other, each behind the elements it does not precede. *)

Section Sort.
Context {A : Type}.
Variable comparefn : A -> A -> Z.

Fixpoint insert (x : A) (l : list A) : list A :=
  match l with
  | [] => [x]
  | y :: l' => if comparefn x y <? 0 then x :: l else y :: insert x l'
  end.

Definition sort (l : list A) : list A :=
  fold_left (fun acc x => insert x acc) l [].

End Sort.

(** The comparators [Array.prototype.sort] is specified for. *)
Record ConsistentComparator {A : Type} (comparefn : A -> A -> Z) : Prop := {
  cmp_antisym : forall a b, comparefn a b < 0 <-> 0 < comparefn b a;
  cmp_trans : forall a b c, comparefn a b <= 0 -> comparefn b c <= 0 -> comparefn a c <= 0 }.

(** ** Date helpers ([src/services/date]) *)

Definition msPerMinute : Z := 60000.
Definition msPerHour : Z := 3600000.
Definition msPerDay : Z := 86400000.

(** [add(day, { days: n })] of date-fns. *)
Definition add_days (day : Date) (n : Z) : Date := day + n * msPerDay.

Definition digitChar (n : Z) : ascii := ascii_of_N (Z.to_N (48 + n)).

Definition digitValue (c : ascii) : option Z :=
  let n := Z.of_N (N_of_ascii c) in
  if (48 <=? n) && (n <=? 57) then Some (n - 48) else None.

Definition pad2 (n : Z) : string :=
  String (digitChar (n / 10)) (String (digitChar (n mod 10)) EmptyString).

(** A time-of-day string is [HH:mm]: two digits, a colon, two digits, with
    the hour below 24 and the minute below 60. *)
Definition parseTime (timeString : string) : option (Z * Z) :=
  match timeString with
  | String h1 (String h2 (String sep (String m1 (String m2 EmptyString)))) =>
      match digitValue h1, digitValue h2, digitValue m1, digitValue m2 with
      | Some a, Some b, Some c, Some d =>
          let hours := 10 * a + b in
          let minutes := 10 * c + d in
          if Ascii.eqb sep ":" && (hours <? 24) && (minutes <? 60)
          then Some (hours, minutes) else None
      | _, _, _, _ => None
      end
  | _ => None
  end.

(** Modelled from the spec: [formatTime] of [services/date], which is not
    among the sources; it renders a timestamp as its time of day, [HH:mm]. *)
Definition formatTime (d : Date) : string :=
  let t := d mod msPerDay in
  (pad2 (t / msPerHour) ++ ":" ++ pad2 ((t / msPerMinute) mod 60))%string.

(** Modelled from the spec: [combineDateWithTime] of [services/date], which is
    not among the sources; the timestamp with [day]'s calendar date and
    [timeString]'s time of day.  [None] is the [Invalid Date] obtained from a
    string that is no time of day. *)
Definition combineDateWithTime (day : Date) (timeString : string) : option Date :=
  match parseTime timeString with
  | Some (hours, minutes) =>
      Some (day / msPerDay * msPerDay + hours * msPerHour + minutes * msPerMinute)
  | None => None
  end.

(** What [sortStartStopables] compares: anything with a start and, unless it
    is still running, a stop. *)
Class StartStopable (A : Type) := {
  startOf : A -> Date;
  stopOf : A -> option Date }.

#[export] Instance StartStopable_TimeEntry : StartStopable TimeEntry.t :=
  {| startOf := TimeEntry.start; stopOf := TimeEntry.stop |}.

(** Modelled from the spec: [sortStartStopables] of [services/date], which is
    not among the sources.  A running entry comes after every stopped one,
    stopped entries go by start time; two running entries compare equal (both
    are the latest), a case the spec leaves open. *)
Definition sortStartStopables {A} `{StartStopable A} (a b : A) : Z :=
  match stopOf a, stopOf b with
  | Some _, Some _ => startOf a - startOf b
  | None, Some _ => 1
  | Some _, None => -1
  | None, None => 0
  end.

(** ** What the platform supplies *)

Class Runtime := {
  (** [Date.parse], behind [new Date(string)] *)
  Date_parse : string -> Date;
  (** [String.prototype.localeCompare] in the host's locale *)
  localeCompare : string -> string -> Z;
  (** [formatDate] of [services/date]: the date-only string of a timestamp *)
  formatDate : Date -> string }.

(** [new Date(value)] for a value received as JSON: [null] converts to the
    number 0, the epoch; a string is parsed. *)
Definition new_Date {RT : Runtime} (value : Json_string) : Date :=
  match value with
  | JNull => 0
  | JString s => Date_parse s
  end.

(** ** [TogglService] *)

Section TogglService.
Context {RT : Runtime}.

Definition mapClient (client : TogglClient.t) : Client.t :=
  {| Client.id := TogglClient.id client; Client.name := TogglClient.name client |}.

Definition fetchClients (ax : Request -> HttpResult (list TogglClient.t))
    (workspaceId : Z) : Eff World (list Client.t) :=
  data <- await ax (GET (WorkspaceClients workspaceId) []) ;;
  match data with
  | Some data =>
      let clients := map mapClient data in
      TogglStore_update (modify (TogglStore.set_clients clients)) ;;
      ret clients
  | None => ret []
  end.

Definition mapProject (clients : list Client.t) (project : TogglProject.t) : Project.t :=
  let ws := {| Workspace.id := TogglProject.workspace_id project |} in
  {| Project.client :=
       find (fun client => Client.id client =? TogglProject.client_id project) clients;
     Project.color := TogglProject.color project;
     Project.id := TogglProject.id project;
     Project.name := TogglProject.name project;
     Project.workspace := ws |}.

Definition compareProjectNames (p1 p2 : Project.t) : Z :=
  localeCompare (Project.name p1) (Project.name p2).

Definition fetchProjects (ax : Request -> HttpResult (list TogglProject.t))
    (workspaceId : Z) : Eff World (list Project.t) :=
  data <- await ax (GET (WorkspaceProjects workspaceId) []) ;;
  st <- TogglStore_getRawState ;;
  let clients := TogglStore.clients st in
  match data with
  | Some data =>
      let projects := sort compareProjectNames (map (mapProject clients) data) in
      TogglStore_update (modify (TogglStore.set_projects projects))
  | None => ret tt
  end ;;
  ret [].

Definition mapTimeEntry (entry : TogglTimeEntry.t) (projects : list Project.t) : TimeEntry.t :=
  let project :=
    find (fun project => Project.id project =? TogglTimeEntry.project_id entry) projects in
  let item :=
    {| TimeEntry.description := TogglTimeEntry.description entry;
       TimeEntry.duration := TogglTimeEntry.duration entry;
       TimeEntry.id := TogglTimeEntry.id entry;
       TimeEntry.project := project;
       TimeEntry.start := new_Date (JString (TogglTimeEntry.start entry));
       TimeEntry.stop := None |} in
  match TogglTimeEntry.stop entry with
  | Some value => TimeEntry.set_stop item (new_Date value)
  | None => item
  end.

(** The updater [fetchActiveTimeEntry] hands to [TimeBookingStore.update]:
    five assignments in the order of the source, the last one reading
    [entry.project.id]. *)
Definition activeEntryUpdater (entry : TimeEntry.t) : Eff TimeBookingStore.t unit :=
  modify (TimeBookingStore.set_day (TimeEntry.start entry)) ;;
  modify (TimeBookingStore.set_description (TimeEntry.description entry)) ;;
  modify (TimeBookingStore.set_start (formatTime (TimeEntry.start entry))) ;;
  modify (TimeBookingStore.set_entry entry) ;;
  project <- deref (TimeEntry.project entry) ;;
  modify (TimeBookingStore.set_projectId (Project.id project)).

Definition fetchActiveTimeEntry (ax : Request -> HttpResult TogglTimeEntry.t)
    : Eff World (option TimeEntry.t) :=
  data <- await ax (GET MeTimeEntriesCurrent []) ;;
  match data with
  | None => ret None
  | Some data =>
      st <- TogglStore_getRawState ;;
      let entry := mapTimeEntry data (TogglStore.projects st) in
      TimeBookingStore_update (activeEntryUpdater entry) ;;
      ret (Some entry)
  end.

Definition dayQuery (day : Date) : Request :=
  GET MeTimeEntries
    [("start_date"%string, formatDate day);
     ("end_date"%string, formatDate (add_days day 1))].

(** The development-mode delay before the request only passes time and is
    left out.  [data.map] on a [null] body is a [TypeError]. *)
Definition fetchTimeEntriesOfDay (ax : Request -> HttpResult (list TogglTimeEntry.t))
    (day : Date) : Eff World (list TimeEntry.t) :=
  data <- await ax (dayQuery day) ;;
  data <- deref data ;;
  st <- TogglStore_getRawState ;;
  ret (sort sortStartStopables
         (map (fun entry => mapTimeEntry entry (TogglStore.projects st)) data)).

Definition updateRequest (project : Project.t) (entry : TimeEntry.t) : Request :=
  PUT (WorkspaceTimeEntry (Workspace.id (Project.workspace project)) (TimeEntry.id entry))
      entry.

(** The path is built inside the [try] block, so a missing [entry.project]
    is caught like a failed request; every path that does not return the
    mapped answer falls through to [return null]. *)
Definition updateTimeEntry (ax : Request -> HttpResult TogglTimeEntry.t)
    (entry : TimeEntry.t) : Eff World (option TimeEntry.t) :=
  tryCatch
    (project <- deref (TimeEntry.project entry) ;;
     data <- await ax (updateRequest project entry) ;;
     match data with
     | Some data =>
         st <- TogglStore_getRawState ;;
         ret (Some (mapTimeEntry data (TogglStore.projects st)))
     | None => ret None
     end)
    (ret None).

End TogglService.

(** ** The booking form ([src/components/create-entry/CreateEntry]) *)

(** The draft the form edits, with the fields its tests read and write. *)
Module BookingStore.
Record t := {
  day : Date;
  projectId : option Z;
  timeEntryDescription : string;
  timeEntryId : option Z;
  timeStart : string;
  timeStop : option string }.
Definition set_timeStart (v : string) (s : t) : t :=
  {| day := day s; projectId := projectId s;
     timeEntryDescription := timeEntryDescription s; timeEntryId := timeEntryId s;
     timeStart := v; timeStop := timeStop s |}.
Definition set_timeStop (v : string) (s : t) : t :=
  {| day := day s; projectId := projectId s;
     timeEntryDescription := timeEntryDescription s; timeEntryId := timeEntryId s;
     timeStart := timeStart s; timeStop := Some v |}.
End BookingStore.

(** The argument the form passes to [updateTimeEntry], as its test expects
    it: the draft with both time strings replaced by timestamps. *)
Module UpdatePayload.
Record t := {
  day : Date;
  projectId : option Z;
  timeEntryDescription : string;
  timeEntryId : Z;
  timeStart : Date;
  timeStop : Date }.
End UpdatePayload.

Inductive ServiceCall :=
| StopTimeEntry (timeEntryId : Z)
| UpdateTimeEntry (payload : UpdatePayload.t).

(** The two states a commit acts on. *)
Definition Stoppable (b : BookingStore.t) (timeEntryId : Z) : Prop :=
  BookingStore.timeEntryId b = Some timeEntryId /\
  combineDateWithTime (BookingStore.day b) (BookingStore.timeStart b) <> None /\
  BookingStore.timeStop b = None.

Definition Completable (b : BookingStore.t) (timeEntryId : Z) (start stop : Date) : Prop :=
  BookingStore.timeEntryId b = Some timeEntryId /\
  combineDateWithTime (BookingStore.day b) (BookingStore.timeStart b) = Some start /\
  (exists timeStop, BookingStore.timeStop b = Some timeStop /\
     combineDateWithTime (BookingStore.day b) timeStop = Some stop).

(** Modelled from the spec: the commit handler of the [CreateEntry]
    component, which is not among the sources (only its test is).  A draft
    with an entry id and a start time stops the entry when it has no stop
    time, and updates it with both bounds when it has one; the calls are
    returned in the order they are issued. *)
Definition commit (b : BookingStore.t) : list ServiceCall :=
  match BookingStore.timeEntryId b with
  | None => []
  | Some timeEntryId =>
      match combineDateWithTime (BookingStore.day b) (BookingStore.timeStart b) with
      | None => []
      | Some start =>
          match BookingStore.timeStop b with
          | None => [StopTimeEntry timeEntryId]
          | Some timeStop =>
              match combineDateWithTime (BookingStore.day b) timeStop with
              | None => []
              | Some stop =>
                  [UpdateTimeEntry
                     {| UpdatePayload.day := BookingStore.day b;
                        UpdatePayload.projectId := BookingStore.projectId b;
                        UpdatePayload.timeEntryDescription :=
                          BookingStore.timeEntryDescription b;
                        UpdatePayload.timeEntryId := timeEntryId;
                        UpdatePayload.timeStart := start;
                        UpdatePayload.timeStop := stop |}]
              end
          end
      end
  end.

(** The rendered form: the draft and the error status of the two time inputs. *)
Record Form := {
  booking : BookingStore.t;
  startStatusError : bool;
  stopStatusError : bool }.

Definition render (b : BookingStore.t) : Form :=
  {| booking := b; startStatusError := false; stopStatusError := false |}.

Definition stopBeforeStart (day : Date) (timeStart timeStop : string) : bool :=
  match combineDateWithTime day timeStart, combineDateWithTime day timeStop with
  | Some start, Some stop => stop <? start
  | _, _ => false
  end.

(** Modelled from the spec: the handlers of the two time inputs and of the
    action button of [CreateEntry], which is not among the sources.  A start
    time goes into the draft; a stop time earlier than the start, on the
    draft's day, is refused: the input is flagged and the draft keeps what it
    had.  While the stop input is flagged the button is disabled. *)
Definition inputTimeStart (f : Form) (value : string) : Form :=
  {| booking := BookingStore.set_timeStart value (booking f);
     startStatusError := startStatusError f;
     stopStatusError := stopStatusError f |}.

Definition inputTimeStop (f : Form) (value : string) : Form :=
  if stopBeforeStart (BookingStore.day (booking f)) (BookingStore.timeStart (booking f)) value
  then {| booking := booking f;
          startStatusError := startStatusError f;
          stopStatusError := true |}
  else {| booking := BookingStore.set_timeStop value (booking f);
          startStatusError := startStatusError f;
          stopStatusError := false |}.

Definition actionDisabled (f : Form) : bool := stopStatusError f.

Definition clickAction (f : Form) : list ServiceCall :=
  if actionDisabled f then [] else commit (booking f).

(** ** A runtime and data to run the model on *)

Definition ordinalCompare (a b : string) : Z :=
  match String.compare a b with
  | Lt => -1
  | Eq => 0
  | Gt => 1
  end.

(** Timestamps written as a count of minutes, and dates shown as the number
    of the day: enough to execute the service. *)
Definition minutesOf (s : string) : Date :=
  Z.of_N (fold_left (fun acc c => (10 * acc + (N_of_ascii c - 48))%N) (list_ascii_of_string s) 0%N)
  * msPerMinute.

Definition testRuntime : Runtime :=
  {| Date_parse := minutesOf;
     localeCompare := ordinalCompare;
     formatDate := fun d => pad2 (d / msPerDay) |}.

Definition clientA : Client.t := {| Client.id := 1; Client.name := "Client A" |}.

Definition testProject (id : Z) (name : string) : Project.t :=
  {| Project.client := Some clientA; Project.color := "#ffffff"; Project.id := id;
     Project.name := name; Project.workspace := {| Workspace.id := 7 |} |}.

Definition testProjects : list Project.t :=
  [testProject 1 "Project A"; testProject 2 "Project B"; testProject 3 "Project C"].

Definition wireProject (id : Z) (name : string) : TogglProject.t :=
  {| TogglProject.workspace_id := 7; TogglProject.client_id := 1;
     TogglProject.color := "#ffffff"; TogglProject.id := id; TogglProject.name := name |}.

Definition wireEntry (id project_id : Z) (start : string) (stop : option Json_string)
    : TogglTimeEntry.t :=
  {| TogglTimeEntry.description := "Running Entry 1"; TogglTimeEntry.duration := -1;
     TogglTimeEntry.id := id; TogglTimeEntry.project_id := project_id;
     TogglTimeEntry.start := start; TogglTimeEntry.stop := stop |}.

Definition emptyDraft : TimeBookingStore.t :=
  {| TimeBookingStore.day := 0; TimeBookingStore.description := "";
     TimeBookingStore.start := ""; TimeBookingStore.stop := Some "17:30"%string;
     TimeBookingStore.entry := None; TimeBookingStore.projectId := None |}.

Definition testWorld : World :=
  {| togglStore := {| TogglStore.clients := [clientA]; TogglStore.projects := testProjects |};
     timeBookingStore := emptyDraft;
     issued := [] |}.

(** The draft of the form's tests: entry 1234 of project 2, running. *)
Definition runningDraft (now : Date) (timeStart : string) : BookingStore.t :=
  {| BookingStore.day := now; BookingStore.projectId := Some 2;
     BookingStore.timeEntryDescription := "Running Entry 1";
     BookingStore.timeEntryId := Some 1234;
     BookingStore.timeStart := timeStart; BookingStore.timeStop := None |}.

Definition remoteProjects : list TogglProject.t :=
  [wireProject 3 "zeta"; wireProject 1 "alpha"; wireProject 2 "Beta"; wireProject 9 "alpha"].

Definition receivedEntries : list TogglTimeEntry.t :=
  [wireEntry 1 2 "545" None;
   wireEntry 2 2 "600" (Some (JString "700"));
   wireEntry 3 1 "30" (Some (JString "50"))].

Definition runningEntry : TimeEntry.t :=
  @mapTimeEntry testRuntime (wireEntry 1234 2 "545" None) testProjects.

(** ** Orders read off the comparators *)

(** [a] may stand before [b] in an array sorted with [comparefn]. *)
Definition inOrder {A} (comparefn : A -> A -> Z) (a b : A) : Prop := comparefn a b <= 0.

(** Ascending start among stopped entries, running entries behind them. *)
Definition startsInOrder (a b : TimeEntry.t) : Prop :=
  match TimeEntry.stop a, TimeEntry.stop b with
  | Some _, Some _ => TimeEntry.start a <= TimeEntry.start b
  | None, Some _ => False
  | _, None => True
  end.

(** What the draft looks like once an active entry has been written into it:
    the five fields come from the entry, the stop time is the old one. *)
Definition overwrittenBy (entry : TimeEntry.t) (old new : TimeBookingStore.t) : Prop :=
  TimeBookingStore.day new = TimeEntry.start entry /\
  TimeBookingStore.description new = TimeEntry.description entry /\
  TimeBookingStore.start new = formatTime (TimeEntry.start entry) /\
  TimeBookingStore.entry new = Some entry /\
  TimeBookingStore.projectId new = option_map Project.id (TimeEntry.project entry) /\
  TimeBookingStore.projectId new <> None /\
  TimeBookingStore.stop new = TimeBookingStore.stop old.

(** ** The shared instance ([TogglService.getInstance]) *)

Record AxiosInstance := { baseURL : string }.

(** A [TogglService] object: the two private fields of the class. *)
Module Service.
Record t := { ax : AxiosInstance; _token : string }.
Definition token (s : t) : string := _token s.
Definition set_token (token : string) (s : t) : t :=
  {| ax := ax s; _token := token |}.
End Service.

Record Auth := { username : string; password : string }.

Definition getAuth (this : Service.t) : Auth :=
  {| username := Service.token this; password := "api_token" |}.

(** [new TogglService(token)]: [_token] starts as the empty string and goes
    through the setter; [ax] is the axios instance on the fixed base URL. *)
Definition new_TogglService (token : string) : Service.t :=
  Service.set_token token
    {| Service.ax := {| baseURL := "https://api.track.toggl.com/api/v9" |};
       Service._token := "" |}.

(** The objects constructed so far, by address, and the static field
    [TogglService.instance], which holds an address or is still [undefined]. *)
Record Statics := {
  heap : list Service.t;
  instance : option nat }.

Definition noInstance : Statics := {| heap := []; instance := None |}.

Fixpoint assign (addr : nat) (f : Service.t -> Service.t) (h : list Service.t)
    : list Service.t :=
  match h, addr with
  | [], _ => []
  | o :: h', O => f o :: h'
  | o :: h', S addr' => o :: assign addr' f h'
  end.

Definition getInstance (token : string) (st : Statics) : nat * Statics :=
  match instance st with
  | None =>
      let addr := List.length (heap st) in
      (addr, {| heap := heap st ++ [new_TogglService token]; instance := Some addr |})
  | Some addr =>
      (addr, {| heap := assign addr (Service.set_token token) (heap st);
                instance := Some addr |})
  end.

(** One [getInstance] call per token, in order; the references handed out,
    first call first. *)
Fixpoint getInstances (tokens : list string) (st : Statics) : list nat * Statics :=
  match tokens with
  | [] => ([], st)
  | token :: rest =>
      let (ref, st') := getInstance token st in
      let (refs, st'') := getInstances rest st' in
      (ref :: refs, st'')
  end.

(** ** Shorthands for the statements *)

(** The world once [req] has gone out. *)
Definition logged (req : Request) (w : World) : World :=
  {| togglStore := togglStore w; timeBookingStore := timeBookingStore w;
     issued := issued w ++ [req] |}.

(** Both stores of [w'] are those of [w]. *)
Definition sameStores (w w' : World) : Prop :=
  togglStore w' = togglStore w /\ timeBookingStore w' = timeBookingStore w.

(** Two further responses to run the service on. *)
Definition remoteClients : list TogglClient.t :=
  [{| TogglClient.id := 1; TogglClient.name := "Client A" |};
   {| TogglClient.id := 2; TogglClient.name := "Client B" |}].

Definition distinctProjects : list TogglProject.t :=
  [wireProject 3 "zeta"; wireProject 1 "alpha"; wireProject 2 "Beta"].

(** Nothing cached yet. *)
Definition emptyWorld : World :=
  {| togglStore := {| TogglStore.clients := []; TogglStore.projects := [] |};
     timeBookingStore := emptyDraft;
     issued := [] |}.

(** * Properties *)

(** ** Sorting *)

Section SortFacts.
Context {A : Type} (comparefn : A -> A -> Z).

Lemma insert_Permutation (x : A) (l : list A) :
  Permutation (x :: l) (insert comparefn x l).
Proof.
  induction l as [|y l IH]; simpl.
  - apply Permutation_refl.
  - destruct (comparefn x y <? 0).
    + apply Permutation_refl.
    + eapply perm_trans; [apply perm_swap|]. now apply perm_skip.
Qed.

Lemma fold_insert_Permutation (l acc : list A) :
  Permutation (l ++ acc) (fold_left (fun acc x => insert comparefn x acc) l acc).
Proof.
  revert acc. induction l as [|x l IH]; intros acc; simpl.
  - apply Permutation_refl.
  - eapply perm_trans; [|apply IH].
    eapply perm_trans; [apply Permutation_middle|].
    apply Permutation_app_head, insert_Permutation.
Qed.

Lemma sort_Permutation (l : list A) : Permutation l (sort comparefn l).
Proof.
  unfold sort. rewrite <- (app_nil_r l) at 1. apply fold_insert_Permutation.
Qed.

Lemma sort_length (l : list A) : List.length (sort comparefn l) = List.length l.
Proof. symmetry. apply Permutation_length, sort_Permutation. Qed.

Hypothesis consistent : ConsistentComparator comparefn.

Lemma insert_StronglySorted (x : A) (l : list A) :
  StronglySorted (inOrder comparefn) l ->
  StronglySorted (inOrder comparefn) (insert comparefn x l).
Proof.
  induction 1 as [|y l Hsorted IH Hall]; simpl.
  - constructor; constructor.
  - destruct (Z.ltb_spec (comparefn x y) 0) as [Hlt|Hge].
    + constructor.
      * now constructor.
      * constructor; [unfold inOrder; lia|].
        eapply Forall_impl; [|exact Hall].
        intros z Hyz. eapply (cmp_trans _ consistent); [|exact Hyz].
        unfold inOrder; lia.
    + constructor; [exact IH|].
      assert (Hyx : inOrder comparefn y x).
      { unfold inOrder. destruct (Z_le_gt_dec (comparefn y x) 0) as [|Hgt]; [assumption|].
        assert (comparefn x y < 0) by (apply (cmp_antisym _ consistent); lia). lia. }
      eapply Permutation_Forall; [apply insert_Permutation|].
      now constructor.
Qed.

Lemma sort_StronglySorted (l : list A) :
  StronglySorted (inOrder comparefn) (sort comparefn l).
Proof.
  unfold sort.
  assert (Hacc : forall acc, StronglySorted (inOrder comparefn) acc ->
            StronglySorted (inOrder comparefn)
              (fold_left (fun acc x => insert comparefn x acc) l acc)).
  { induction l as [|x l IH]; intros acc Hs; simpl; [assumption|].
    apply IH, insert_StronglySorted, Hs. }
  apply Hacc. constructor.
Qed.

End SortFacts.

Lemma StronglySorted_weaken {A} (R S : A -> A -> Prop) (l : list A) :
  (forall a b, R a b -> S a b) -> StronglySorted R l -> StronglySorted S l.
Proof.
  intros HRS. induction 1 as [|a l _ IH Hall]; constructor; [exact IH|].
  eapply Forall_impl; [|exact Hall]. intros b. apply HRS.
Qed.

Lemma sortStartStopables_consistent :
  ConsistentComparator (sortStartStopables (A := TimeEntry.t)).
Proof.
  split; unfold sortStartStopables.
  - intros a b. destruct (stopOf a), (stopOf b); lia.
  - intros a b c. destruct (stopOf a), (stopOf b), (stopOf c); lia.
Qed.

Lemma sortStartStopables_startsInOrder (a b : TimeEntry.t) :
  inOrder sortStartStopables a b -> startsInOrder a b.
Proof.
  unfold inOrder, sortStartStopables, startsInOrder; simpl.
  destruct (TimeEntry.stop a), (TimeEntry.stop b); lia.
Qed.

Lemma find_None_iff {A} (f : A -> bool) (l : list A) :
  find f l = None <-> forall x, In x l -> f x = false.
Proof.
  split.
  - intros Hnone x. now apply find_none.
  - intros Hall. destruct (find f l) as [x|] eqn:Hfind; [|reflexivity].
    apply find_some in Hfind as [Hin Hfx]. rewrite (Hall x Hin) in Hfx. discriminate.
Qed.

(** ** The service *)

Section TogglServiceFacts.
Context {RT : Runtime}.

(** C1. Whatever the workspace and whatever the remote answers,
    [fetchProjects] returns the empty list: any value it returns is [[]], and
    it does return [[]] on every response; when the response carried
    projects, the cache then holds them all, mapped and sorted, while the
    returned list is still empty. *)
Theorem fetchProjects_returns_empty_list
    (ax : Request -> HttpResult (list TogglProject.t)) (workspaceId : Z) (w : World) :
  let r := fetchProjects ax workspaceId w in
  (forall v, fst r = Returned v -> v = []) /\
  (forall data, ax (GET (WorkspaceProjects workspaceId) []) = Fulfilled data ->
     fst r = Returned [] /\
     (forall remote, data = Some remote ->
        TogglStore.projects (togglStore (snd r)) =
          sort compareProjectNames
            (map (mapProject (TogglStore.clients (togglStore w))) remote) /\
        List.length (TogglStore.projects (togglStore (snd r))) = List.length remote)).
Proof.
  unfold fetchProjects, bind, await, TogglStore_getRawState, TogglStore_update, modify, ret.
  simpl. destruct (ax (GET (WorkspaceProjects workspaceId) [])) as [[remote|]|reason]; simpl.
  - split; [intros v Hv; now inversion Hv|].
    intros data Hdata. inversion Hdata; subst data. split; [reflexivity|].
    intros remote' Hremote. inversion Hremote; subst remote'.
    split; [reflexivity|]. now rewrite sort_length, length_map.
  - split; [intros v Hv; now inversion Hv|].
    intros data Hdata. inversion Hdata; subst data. split; [reflexivity|].
    intros remote' Hremote. discriminate.
  - split; [intros v Hv; discriminate|].
    intros data Hdata. discriminate.
Qed.

(** C2, as amended. The mapped entry has a [stop] exactly when the wire record
    has a [stop] key, whatever the value under it: the field is the [Date]
    built from that value (the epoch for [null]), and it is missing exactly
    when the key is. *)
Theorem mapTimeEntry_stop_follows_key (entry : TogglTimeEntry.t) (projects : list Project.t) :
  TimeEntry.stop (mapTimeEntry entry projects) =
    option_map new_Date (TogglTimeEntry.stop entry) /\
  (TimeEntry.stop (mapTimeEntry entry projects) = None <->
     TogglTimeEntry.stop entry = None) /\
  new_Date JNull = 0.
Proof.
  unfold mapTimeEntry. destruct (TogglTimeEntry.stop entry) as [value|]; simpl.
  - repeat split; discriminate.
  - repeat split; reflexivity.
Qed.

(** C3. With [localeCompare] a consistent comparator, after [fetchProjects]
    has received a list of projects, in whatever order, the cached collection
    is that list mapped, and it ascends by name under [localeCompare]. *)
Theorem fetchProjects_cache_sorted
    (ax : Request -> HttpResult (list TogglProject.t)) (workspaceId : Z) (w : World)
    (remote : list TogglProject.t) :
  ConsistentComparator localeCompare ->
  ax (GET (WorkspaceProjects workspaceId) []) = Fulfilled (Some remote) ->
  let cached := TogglStore.projects (togglStore (snd (fetchProjects ax workspaceId w))) in
  StronglySorted (fun p1 p2 => localeCompare (Project.name p1) (Project.name p2) <= 0) cached /\
  Permutation (map (mapProject (TogglStore.clients (togglStore w))) remote) cached.
Proof.
  intros Hcmp Hax.
  unfold fetchProjects, bind, await, TogglStore_getRawState, TogglStore_update, modify, ret.
  simpl. rewrite Hax. simpl. split.
  - apply (sort_StronglySorted compareProjectNames).
    split; unfold compareProjectNames.
    + intros a b. apply (cmp_antisym _ Hcmp).
    + intros a b c. apply (cmp_trans _ Hcmp).
  - apply sort_Permutation.
Qed.


(** [updateTimeEntry] ends with a value on every path, and touches neither
    store. *)
Lemma updateTimeEntry_total
    (ax : Request -> HttpResult TogglTimeEntry.t) (entry : TimeEntry.t) (w : World) :
  let r := updateTimeEntry ax entry w in
  (exists result, fst r = Returned result) /\
  togglStore (snd r) = togglStore w /\
  timeBookingStore (snd r) = timeBookingStore w.
Proof.
  unfold updateTimeEntry, tryCatch, bind, deref, await, TogglStore_getRawState, throw, ret.
  destruct (TimeEntry.project entry) as [project|]; simpl.
  - destruct (ax (updateRequest project entry)) as [[data|]|reason]; simpl; eauto.
  - eauto.
Qed.

(** C5. For every entry, when the update fails -- the request is rejected, by
    the network or with a status outside 2xx, or cannot even be built because
    the entry has no project -- nothing is thrown: the call returns [null],
    and both stores are what they were. *)
Theorem updateTimeEntry_failure_returns_null
    (ax : Request -> HttpResult TogglTimeEntry.t) (entry : TimeEntry.t) (w : World) :
  (forall project, TimeEntry.project entry = Some project ->
     exists reason, ax (updateRequest project entry) = Rejected reason) ->
  let r := updateTimeEntry ax entry w in
  fst r = Returned None /\
  togglStore (snd r) = togglStore w /\
  timeBookingStore (snd r) = timeBookingStore w.
Proof.
  intros Hfails.
  unfold updateTimeEntry, tryCatch, bind, deref, await, TogglStore_getRawState, throw, ret.
  destruct (TimeEntry.project entry) as [project|]; simpl.
  - destruct (Hfails project eq_refl) as [reason Hax]. rewrite Hax. simpl. auto.
  - auto.
Qed.

(** X19. When the remote reports no running entry, [fetchActiveTimeEntry]
    returns [null] and the draft is untouched.  When it reports one whose
    project is in the cached collection, the mapped entry is returned,
    [day], [description], [start], [entry] and [projectId] of the draft are
    overwritten from it, and the stop time of the draft is kept.  The cached
    collections are the same afterwards in both cases. *)
Theorem fetchActiveTimeEntry_overwrites_draft
    (ax : Request -> HttpResult TogglTimeEntry.t) (w : World)
    (data : option TogglTimeEntry.t) :
  ax (GET MeTimeEntriesCurrent []) = Fulfilled data ->
  (forall running, data = Some running ->
     TimeEntry.project (mapTimeEntry running (TogglStore.projects (togglStore w))) <> None) ->
  let r := fetchActiveTimeEntry ax w in
  togglStore (snd r) = togglStore w /\
  match data with
  | None =>
      fst r = Returned None /\ timeBookingStore (snd r) = timeBookingStore w
  | Some running =>
      let entry := mapTimeEntry running (TogglStore.projects (togglStore w)) in
      fst r = Returned (Some entry) /\
      overwrittenBy entry (timeBookingStore w) (timeBookingStore (snd r))
  end.
Proof.
  intros Hax Hresolved.
  unfold fetchActiveTimeEntry, bind, await, TogglStore_getRawState, ret.
  rewrite Hax. destruct data as [running|]; simpl; [|auto].
  specialize (Hresolved running eq_refl).
  unfold TimeBookingStore_update, activeEntryUpdater, bind, modify, deref, ret, throw. simpl.
  destruct (TimeEntry.project (mapTimeEntry running (TogglStore.projects (togglStore w))))
    as [project|] eqn:Hproject; [|contradiction].
  simpl. unfold overwrittenBy. simpl. rewrite Hproject. simpl.
  repeat split; discriminate.
Qed.

(** C10. When the remote reports a running entry, [fetchActiveTimeEntry]
    rejects with a [TypeError] exactly when no cached project has the entry's
    [project_id]; it then leaves both stores as they were.  When some cached
    project has that id, the call returns the mapped entry. *)
Theorem fetchActiveTimeEntry_throws_iff_project_unknown
    (ax : Request -> HttpResult TogglTimeEntry.t) (w : World) (running : TogglTimeEntry.t) :
  ax (GET MeTimeEntriesCurrent []) = Fulfilled (Some running) ->
  let r := fetchActiveTimeEntry ax w in
  let unknown :=
    forall project, In project (TogglStore.projects (togglStore w)) ->
      Project.id project <> TogglTimeEntry.project_id running in
  (unknown <-> fst r = Thrown TypeError) /\
  (unknown ->
     togglStore (snd r) = togglStore w /\ timeBookingStore (snd r) = timeBookingStore w) /\
  (~ unknown ->
     fst r = Returned (Some (mapTimeEntry running (TogglStore.projects (togglStore w))))).
Proof.
  intros Hax r unknown.
  assert (Hfind : unknown <->
            find (fun project => Project.id project =? TogglTimeEntry.project_id running)
              (TogglStore.projects (togglStore w)) = None).
  { rewrite find_None_iff. unfold unknown. split; intros Hall p Hin.
    - apply Z.eqb_neq, Hall, Hin.
    - apply Z.eqb_neq, Hall, Hin. }
  subst r.
  unfold fetchActiveTimeEntry, bind, await, TogglStore_getRawState, ret.
  rewrite Hax. simpl.
  unfold TimeBookingStore_update, activeEntryUpdater, bind, modify, deref, ret, throw. simpl.
  assert (Hproject :
    TimeEntry.project (mapTimeEntry running (TogglStore.projects (togglStore w))) =
    find (fun project => Project.id project =? TogglTimeEntry.project_id running)
      (TogglStore.projects (togglStore w))).
  { unfold mapTimeEntry. now destruct (TogglTimeEntry.stop running). }
  rewrite Hproject.
  destruct (find _ (TogglStore.projects (togglStore w))) as [project|]; simpl.
  - assert (Hknown : ~ unknown) by (intros Hunknown; apply Hfind in Hunknown; discriminate).
    split; [split; [intros Hunknown; contradiction|discriminate]|].
    split; [intros Hunknown; contradiction|reflexivity].
  - assert (Hunknown : unknown) by (apply Hfind; reflexivity).
    split; [split; [reflexivity|intros _; exact Hunknown]|].
    split; [intros _; split; reflexivity|intros Hknown; contradiction].
Qed.

(** C7. [fetchTimeEntriesOfDay day] issues one request, for the entries
    between the date of [day] and the date of the day after it, both as
    date-only strings; from the entries received it returns the mapped ones,
    all of them, stopped entries first by ascending start and running entries
    last. *)
Theorem fetchTimeEntriesOfDay_query_and_order
    (ax : Request -> HttpResult (list TogglTimeEntry.t)) (day : Date) (w : World)
    (received : list TogglTimeEntry.t) :
  let query :=
    GET MeTimeEntries
      [("start_date"%string, formatDate day);
       ("end_date"%string, formatDate (day + 1 * msPerDay))] in
  ax query = Fulfilled (Some received) ->
  let r := fetchTimeEntriesOfDay ax day w in
  issued (snd r) = issued w ++ [query] /\
  (day + 1 * msPerDay) / msPerDay = day / msPerDay + 1 /\
  exists entries,
    fst r = Returned entries /\
    Permutation
      (map (fun entry => mapTimeEntry entry (TogglStore.projects (togglStore w))) received)
      entries /\
    StronglySorted (inOrder sortStartStopables) entries /\
    StronglySorted startsInOrder entries.
Proof.
  intros query Hax.
  unfold fetchTimeEntriesOfDay, bind, await, deref, TogglStore_getRawState, ret.
  change (dayQuery day) with query. rewrite Hax. simpl.
  split; [reflexivity|]. split.
  - change ((day + 1 * msPerDay) / msPerDay = day / msPerDay + 1).
    apply Z.div_add. unfold msPerDay. lia.
  - eexists. split; [reflexivity|]. split; [apply sort_Permutation|].
    assert (Hsorted := sort_StronglySorted sortStartStopables sortStartStopables_consistent
      (map (fun entry => mapTimeEntry entry (TogglStore.projects (togglStore w))) received)).
    split; [exact Hsorted|].
    eapply StronglySorted_weaken; [|exact Hsorted].
    apply sortStartStopables_startsInOrder.
Qed.

End TogglServiceFacts.

(** ** Date helpers *)

Lemma digitValue_digitChar (c : ascii) (n : Z) :
  digitValue c = Some n -> 0 <= n <= 9 /\ digitChar n = c.
Proof.
  unfold digitValue, digitChar.
  destruct ((48 <=? Z.of_N (N_of_ascii c)) && (Z.of_N (N_of_ascii c) <=? 57)) eqn:Hrange;
    [|discriminate].
  intros Hn. inversion Hn; subst n. clear Hn.
  apply andb_prop in Hrange as [Hlo Hhi].
  apply Z.leb_le in Hlo. apply Z.leb_le in Hhi.
  split; [lia|].
  replace (48 + (Z.of_N (N_of_ascii c) - 48)) with (Z.of_N (N_of_ascii c)) by lia.
  rewrite N2Z.id. apply ascii_N_embedding.
Qed.

Lemma pad2_digits (a b : Z) :
  0 <= a <= 9 -> 0 <= b <= 9 ->
  pad2 (10 * a + b) = String (digitChar a) (String (digitChar b) EmptyString).
Proof.
  intros Ha Hb. unfold pad2.
  replace ((10 * a + b) / 10) with a by (Z.div_mod_to_equations; lia).
  replace ((10 * a + b) mod 10) with b by (Z.div_mod_to_equations; lia).
  reflexivity.
Qed.

Lemma formatTime_of_parts (days hours minutes : Z) :
  0 <= hours < 24 -> 0 <= minutes < 60 ->
  formatTime (days * msPerDay + hours * msPerHour + minutes * msPerMinute) =
    (pad2 hours ++ ":" ++ pad2 minutes)%string.
Proof.
  intros Hh Hm. unfold formatTime, Date, msPerDay, msPerHour, msPerMinute in *.
  set (t := (days * 86400000 + hours * 3600000 + minutes * 60000) mod 86400000).
  assert (Ht : t = hours * 3600000 + minutes * 60000)
    by (subst t; Z.div_mod_to_equations; lia).
  rewrite Ht.
  replace ((hours * 3600000 + minutes * 60000) / 3600000) with hours
    by (Z.div_mod_to_equations; lia).
  replace (((hours * 3600000 + minutes * 60000) / 60000) mod 60) with minutes
    by (Z.div_mod_to_equations; lia).
  reflexivity.
Qed.

Lemma parseTime_shape (timeString : string) (hours minutes : Z) :
  parseTime timeString = Some (hours, minutes) ->
  0 <= hours < 24 /\ 0 <= minutes < 60 /\
  timeString = (pad2 hours ++ ":" ++ pad2 minutes)%string.
Proof.
  unfold parseTime.
  destruct timeString as [|h1 [|h2 [|sep [|m1 [|m2 [|? ?]]]]]]; try discriminate.
  destruct (digitValue h1) as [a|] eqn:Ha; [|discriminate].
  destruct (digitValue h2) as [b|] eqn:Hb; [|discriminate].
  destruct (digitValue m1) as [c|] eqn:Hc; [|discriminate].
  destruct (digitValue m2) as [d|] eqn:Hd; [|discriminate].
  apply digitValue_digitChar in Ha as [Ha Ha'], Hb as [Hb Hb'], Hc as [Hc Hc'], Hd as [Hd Hd'].
  cbv zeta.
  destruct (Ascii.eqb sep ":" && (10 * a + b <? 24) && (10 * c + d <? 60)) eqn:Hok;
    [|discriminate].
  intros Hparsed.
  assert (Hvalues : hours = 10 * a + b /\ minutes = 10 * c + d) by (split; congruence).
  destruct Hvalues as [-> ->]. clear Hparsed.
  apply andb_prop in Hok as [Hok Hmin]. apply andb_prop in Hok as [Hsep Hhour].
  apply Ascii.eqb_eq in Hsep. apply Z.ltb_lt in Hhour. apply Z.ltb_lt in Hmin.
  split; [lia|]. split; [lia|].
  rewrite !pad2_digits by assumption. simpl. congruence.
Qed.

(** C9. For every day and every time-of-day string [HH:mm],
    [combineDateWithTime] yields a timestamp that [formatTime] renders as
    that very string; the timestamp lies on [day]'s calendar date, at the
    time of day the string names, and is the same for every [day] of that
    date: the time of [day] itself plays no part. *)
Theorem formatTime_combineDateWithTime (day : Date) (timeString : string) (hours minutes : Z) :
  parseTime timeString = Some (hours, minutes) ->
  exists combined,
    combineDateWithTime day timeString = Some combined /\
    formatTime combined = timeString /\
    combined / msPerDay = day / msPerDay /\
    combined mod msPerDay = hours * msPerHour + minutes * msPerMinute /\
    (forall day', day' / msPerDay = day / msPerDay ->
       combineDateWithTime day' timeString = Some combined).
Proof.
  intros Hparsed. unfold combineDateWithTime. rewrite Hparsed.
  destruct (parseTime_shape _ _ _ Hparsed) as (Hh & Hm & Hshape).
  eexists. split; [reflexivity|]. split; [|split; [|split]].
  - rewrite formatTime_of_parts by assumption. now symmetry.
  - unfold Date, msPerDay, msPerHour, msPerMinute in *. Z.div_mod_to_equations. lia.
  - unfold Date, msPerDay, msPerHour, msPerMinute in *. Z.div_mod_to_equations. lia.
  - intros day' Hsame. now rewrite Hsame.
Qed.

(** ** The booking form *)

(** C4. Committing a draft that has an entry id, a start time and no stop
    time issues [stopTimeEntry] for that id, once, and nothing else.
    Committing one that has both times issues [updateTimeEntry], once, and
    nothing else; its argument carries the start and the stop combined with
    the draft's day, and the day, project and description of the draft. *)
Theorem commit_stops_or_updates (b : BookingStore.t) (timeEntryId : Z) :
  (Stoppable b timeEntryId -> commit b = [StopTimeEntry timeEntryId]) /\
  (forall start stop, Completable b timeEntryId start stop ->
     commit b =
       [UpdateTimeEntry
          {| UpdatePayload.day := BookingStore.day b;
             UpdatePayload.projectId := BookingStore.projectId b;
             UpdatePayload.timeEntryDescription := BookingStore.timeEntryDescription b;
             UpdatePayload.timeEntryId := timeEntryId;
             UpdatePayload.timeStart := start;
             UpdatePayload.timeStop := stop |}] /\
     combineDateWithTime (BookingStore.day b) (BookingStore.timeStart b) = Some start /\
     option_map (combineDateWithTime (BookingStore.day b)) (BookingStore.timeStop b) =
       Some (Some stop)).
Proof.
  unfold commit. split.
  - intros (Hid & Hstart & Hstop). rewrite Hid, Hstop.
    destruct (combineDateWithTime (BookingStore.day b) (BookingStore.timeStart b));
      [reflexivity|contradiction].
  - intros start stop (Hid & Hstart & timeStop & Hstop & Hcombined).
    rewrite Hid, Hstart, Hstop. simpl. rewrite Hcombined. auto.
Qed.

(** C8. On one day, after a start time has been entered into a form whose
    start input is not flagged, entering a stop time that lies before it
    flags the stop input and not the start input; the draft keeps what it
    had, the action button is disabled, and clicking it issues no call. *)
Theorem stop_before_start_refused
    (f0 : Form) (timeStart timeStop : string) (start stop : Date) :
  startStatusError f0 = false ->
  combineDateWithTime (BookingStore.day (booking f0)) timeStart = Some start ->
  combineDateWithTime (BookingStore.day (booking f0)) timeStop = Some stop ->
  stop < start ->
  let f := inputTimeStop (inputTimeStart f0 timeStart) timeStop in
  stopStatusError f = true /\
  startStatusError f = false /\
  booking f = booking (inputTimeStart f0 timeStart) /\
  actionDisabled f = true /\
  clickAction f = [].
Proof.
  intros Hunflagged Hstart Hstop Hbefore.
  unfold clickAction, actionDisabled, inputTimeStop, inputTimeStart, stopBeforeStart. simpl.
  rewrite Hstart, Hstop.
  destruct (Z.ltb_spec stop start) as [_|Hge]; [|lia].
  simpl. auto.
Qed.

(** ** More on sorting: one sorted order, and stability *)

Section SortMore.
Context {A : Type} (comparefn : A -> A -> Z).
Hypothesis consistent : ConsistentComparator comparefn.

Lemma cmp_zero_sym (a b : A) : comparefn a b = 0 -> comparefn b a = 0.
Proof.
  intros Hab.
  pose proof (cmp_antisym _ consistent a b) as H1.
  pose proof (cmp_antisym _ consistent b a) as H2. lia.
Qed.

Lemma cmp_zero_of_le (a b : A) :
  comparefn a b <= 0 -> comparefn b a <= 0 -> comparefn a b = 0.
Proof.
  intros Hab Hba. pose proof (cmp_antisym _ consistent a b) as H1. lia.
Qed.

Lemma cmp_lt_le_trans (a b c : A) :
  comparefn a b < 0 -> comparefn b c <= 0 -> comparefn a c < 0.
Proof.
  intros Hab Hbc.
  destruct (Z_lt_ge_dec (comparefn a c) 0) as [|Hge]; [assumption|exfalso].
  assert (Hca : comparefn c a <= 0).
  { pose proof (cmp_antisym _ consistent c a) as H1.
    pose proof (cmp_antisym _ consistent a c) as H2. lia. }
  pose proof (cmp_trans _ consistent b c a Hbc Hca) as Hba.
  pose proof (cmp_antisym _ consistent a b) as H1. lia.
Qed.

Lemma StronglySorted_unique (l1 : list A) :
  forall l2,
    StronglySorted (inOrder comparefn) l1 ->
    StronglySorted (inOrder comparefn) l2 ->
    Permutation l1 l2 ->
    (forall a b, In a l1 -> In b l1 -> comparefn a b = 0 -> a = b) ->
    l1 = l2.
Proof.
  induction l1 as [|a l1 IH]; intros [|b l2] Hs1 Hs2 Hperm Hdistinct.
  - reflexivity.
  - apply Permutation_nil in Hperm. discriminate.
  - apply Permutation_sym, Permutation_nil in Hperm. discriminate.
  - apply StronglySorted_inv in Hs1 as [Hs1 Ha].
    apply StronglySorted_inv in Hs2 as [Hs2 Hb].
    rewrite Forall_forall in Ha, Hb.
    assert (Hab : a = b).
    { assert (Hina : In a (b :: l2)) by (eapply Permutation_in; [exact Hperm|now left]).
      assert (Hinb : In b (a :: l1))
        by (eapply Permutation_in; [apply Permutation_sym, Hperm|now left]).
      destruct Hina as [<-|Hina]; [reflexivity|].
      destruct Hinb as [->|Hinb]; [reflexivity|].
      apply Hdistinct; [now left|now right|].
      apply cmp_zero_of_le; [apply Ha, Hinb|apply Hb, Hina]. }
    subst b. f_equal. apply IH; try assumption.
    + eapply Permutation_cons_inv, Hperm.
    + intros x y Hx Hy. apply Hdistinct; now right.
Qed.

Lemma sort_order_independent (l l' : list A) :
  Permutation l l' ->
  (forall a b, In a l -> In b l -> comparefn a b = 0 -> a = b) ->
  sort comparefn l = sort comparefn l'.
Proof.
  intros Hperm Hdistinct. apply StronglySorted_unique.
  - now apply sort_StronglySorted.
  - now apply sort_StronglySorted.
  - eapply perm_trans; [apply Permutation_sym, sort_Permutation|].
    eapply perm_trans; [exact Hperm|apply sort_Permutation].
  - intros a b Ha Hb. apply Hdistinct.
    + eapply Permutation_in; [apply Permutation_sym, sort_Permutation|exact Ha].
    + eapply Permutation_in; [apply Permutation_sym, sort_Permutation|exact Hb].
Qed.

Lemma filter_none (P : A -> bool) (l : list A) :
  (forall w, In w l -> P w = false) -> filter P l = [].
Proof.
  induction l as [|y l IH]; intros Hall; simpl; [reflexivity|].
  rewrite (Hall y) by now left. apply IH. intros w Hw. apply Hall. now right.
Qed.

Lemma insert_filter (z x : A) (l : list A) :
  StronglySorted (inOrder comparefn) l ->
  filter (fun y => comparefn y z =? 0) (insert comparefn x l) =
    filter (fun y => comparefn y z =? 0) l ++ filter (fun y => comparefn y z =? 0) [x].
Proof.
  induction 1 as [|y l Hsorted IH Hall]; [reflexivity|].
  cbn [insert]. destruct (Z.ltb_spec (comparefn x y) 0) as [Hlt|Hge].
  - change (x :: y :: l) with ([x] ++ y :: l). rewrite filter_app.
    destruct (Z.eqb_spec (comparefn x z) 0) as [Hxz|Hxz].
    + assert (Hnone : filter (fun w => comparefn w z =? 0) (y :: l) = []).
      { apply filter_none. intros w Hw. apply Z.eqb_neq. intros Hwz.
        assert (Hxw : comparefn x w < 0).
        { destruct Hw as [<-|Hw]; [assumption|].
          rewrite Forall_forall in Hall.
          eapply cmp_lt_le_trans; [exact Hlt|apply Hall, Hw]. }
        assert (Hwx : comparefn w x <= 0).
        { apply (cmp_trans _ consistent w z x); [lia|].
          rewrite (cmp_zero_sym x z Hxz). lia. }
        pose proof (cmp_antisym _ consistent x w) as H1. lia. }
      rewrite Hnone. now rewrite app_nil_r.
    + assert (Hx : filter (fun w => comparefn w z =? 0) [x] = []).
      { cbn [filter]. now destruct (Z.eqb_spec (comparefn x z) 0). }
      rewrite Hx. now rewrite app_nil_r.
  - cbn [filter]. rewrite IH. cbn [filter].
    destruct (comparefn y z =? 0); reflexivity.
Qed.

Lemma sort_stable (z : A) (l : list A) :
  filter (fun y => comparefn y z =? 0) (sort comparefn l) =
    filter (fun y => comparefn y z =? 0) l.
Proof.
  unfold sort.
  assert (Hacc : forall acc, StronglySorted (inOrder comparefn) acc ->
            filter (fun y => comparefn y z =? 0)
              (fold_left (fun acc x => insert comparefn x acc) l acc) =
            filter (fun y => comparefn y z =? 0) acc ++
            filter (fun y => comparefn y z =? 0) l).
  { induction l as [|x l IH]; intros acc Hs; cbn [fold_left].
    - now rewrite app_nil_r.
    - rewrite IH by now apply insert_StronglySorted.
      rewrite insert_filter by assumption. rewrite <- app_assoc.
      f_equal. change (x :: l) with ([x] ++ l). now rewrite filter_app. }
  apply (Hacc []). constructor.
Qed.

End SortMore.

(** ** More on the service: clients and projects *)

Ltac run_eff :=
  unfold bind, await, deref, tryCatch, TogglStore_getRawState, TogglStore_update,
    TimeBookingStore_update, modify, ret, throw; cbn.

Lemma find_split {A} (f : A -> bool) (l : list A) (x : A) :
  find f l = Some x ->
  exists before after,
    l = before ++ x :: after /\ f x = true /\ forall y, In y before -> f y = false.
Proof.
  induction l as [|a l IH]; cbn; [discriminate|].
  destruct (f a) eqn:Hfa.
  - intros [= ->]. exists [], l. repeat split; [assumption|intros y []].
  - intros Hfind. destruct (IH Hfind) as (before & after & -> & Hfx & Hbefore).
    exists (a :: before), after. repeat split; [assumption|].
    intros y [<-|Hy]; [assumption|now apply Hbefore].
Qed.

Section TogglServiceMore.
Context {RT : Runtime}.

(** X1. A fulfilled [fetchClients] returns the very list it caches: the
    remote's clients in the remote's order, ids and names unchanged.  The
    cached projects and the draft are not touched, and one request went out. *)
Theorem fetchClients_returns_cached
    (ax : Request -> HttpResult (list TogglClient.t)) (workspaceId : Z) (w : World)
    (data : list TogglClient.t) :
  ax (GET (WorkspaceClients workspaceId) []) = Fulfilled (Some data) ->
  let r := fetchClients ax workspaceId w in
  fst r = Returned (TogglStore.clients (togglStore (snd r))) /\
  map Client.id (TogglStore.clients (togglStore (snd r))) = map TogglClient.id data /\
  map Client.name (TogglStore.clients (togglStore (snd r))) = map TogglClient.name data /\
  TogglStore.projects (togglStore (snd r)) = TogglStore.projects (togglStore w) /\
  timeBookingStore (snd r) = timeBookingStore w /\
  issued (snd r) = issued w ++ [GET (WorkspaceClients workspaceId) []].
Proof.
  intros Hax. unfold fetchClients. run_eff. rewrite Hax. cbn.
  rewrite !map_map. cbn. repeat split; reflexivity.
Qed.

(** X2. Without data [fetchClients] keeps the cache it had: on a [null] body
    it returns the empty list, on a rejected request it rejects with the
    request's error, and in both cases the two stores are what they were. *)
Theorem fetchClients_without_data
    (ax : Request -> HttpResult (list TogglClient.t)) (workspaceId : Z) (w : World) :
  (forall data, ax (GET (WorkspaceClients workspaceId) []) <> Fulfilled (Some data)) ->
  let r := fetchClients ax workspaceId w in
  sameStores w (snd r) /\
  match ax (GET (WorkspaceClients workspaceId) []) with
  | Rejected reason => fst r = Thrown (AxiosError reason)
  | Fulfilled _ => fst r = Returned []
  end.
Proof.
  intros Hnone. unfold fetchClients, sameStores. run_eff.
  destruct (ax (GET (WorkspaceClients workspaceId) [])) as [[data|]|reason] eqn:Hax; cbn.
  - now destruct (Hnone data).
  - auto.
  - auto.
Qed.

(** X3. [fetchProjects] issues exactly one request and writes nothing but the
    cached projects: the cached clients and the draft are the same
    afterwards, whatever the answer.  Unless the answer carries a list, the
    cached projects stay too; a rejected request rejects the call with the
    request's error. *)
Theorem fetchProjects_frame
    (ax : Request -> HttpResult (list TogglProject.t)) (workspaceId : Z) (w : World) :
  let r := fetchProjects ax workspaceId w in
  TogglStore.clients (togglStore (snd r)) = TogglStore.clients (togglStore w) /\
  timeBookingStore (snd r) = timeBookingStore w /\
  issued (snd r) = issued w ++ [GET (WorkspaceProjects workspaceId) []] /\
  ((forall data, ax (GET (WorkspaceProjects workspaceId) []) <> Fulfilled (Some data)) ->
     togglStore (snd r) = togglStore w) /\
  (forall reason, ax (GET (WorkspaceProjects workspaceId) []) = Rejected reason ->
     fst r = Thrown (AxiosError reason)).
Proof.
  unfold fetchProjects. run_eff.
  destruct (ax (GET (WorkspaceProjects workspaceId) [])) as [[data|]|reason]; cbn;
    repeat split; try reflexivity; try discriminate.
  - intros Hnone. now destruct (Hnone data).
  - now intros reason' [= ->].
Qed.

(** X4. Every project cached by [fetchProjects] is one of the remote's, with
    its id, name, colour and workspace; its client is a client of the cache
    as it was at the call, with the id the remote names, and it is missing
    exactly when the cache has no client of that id. *)
Theorem fetchProjects_clients_come_from_cache
    (ax : Request -> HttpResult (list TogglProject.t)) (workspaceId : Z) (w : World)
    (remote : list TogglProject.t) (p : Project.t) :
  ax (GET (WorkspaceProjects workspaceId) []) = Fulfilled (Some remote) ->
  In p (TogglStore.projects (togglStore (snd (fetchProjects ax workspaceId w)))) ->
  exists wire,
    In wire remote /\
    Project.id p = TogglProject.id wire /\
    Project.name p = TogglProject.name wire /\
    Project.color p = TogglProject.color wire /\
    Workspace.id (Project.workspace p) = TogglProject.workspace_id wire /\
    match Project.client p with
    | Some c =>
        In c (TogglStore.clients (togglStore w)) /\ Client.id c = TogglProject.client_id wire
    | None =>
        forall c, In c (TogglStore.clients (togglStore w)) ->
          Client.id c <> TogglProject.client_id wire
    end.
Proof.
  intros Hax. unfold fetchProjects. run_eff. rewrite Hax. cbn. intros Hin.
  eapply Permutation_in in Hin; [|apply Permutation_sym, sort_Permutation].
  apply in_map_iff in Hin as (wire & <- & Hwire).
  exists wire. cbn. repeat split; try assumption.
  destruct (find _ (TogglStore.clients (togglStore w))) as [c|] eqn:Hfind.
  - apply find_some in Hfind as [Hc Hid]. split; [assumption|now apply Z.eqb_eq].
  - intros c Hc. apply Z.eqb_neq. revert c Hc. now apply find_None_iff.
Qed.

(** X5. Clients first, projects second: when both requests are fulfilled and
    every remote project names a client the remote listed, every cached
    project ends up with its client, the one of the id it names. *)
Theorem fetchClients_then_fetchProjects_resolves
    (axC : Request -> HttpResult (list TogglClient.t))
    (axP : Request -> HttpResult (list TogglProject.t))
    (workspaceId : Z) (w : World)
    (clients : list TogglClient.t) (remote : list TogglProject.t) :
  axC (GET (WorkspaceClients workspaceId) []) = Fulfilled (Some clients) ->
  axP (GET (WorkspaceProjects workspaceId) []) = Fulfilled (Some remote) ->
  (forall wire, In wire remote ->
     In (TogglProject.client_id wire) (map TogglClient.id clients)) ->
  let w1 := snd (fetchClients axC workspaceId w) in
  let w2 := snd (fetchProjects axP workspaceId w1) in
  forall p, In p (TogglStore.projects (togglStore w2)) ->
    exists c wire,
      Project.client p = Some c /\
      In c (map mapClient clients) /\
      In wire remote /\
      Project.id p = TogglProject.id wire /\
      Client.id c = TogglProject.client_id wire.
Proof.
  intros HaxC HaxP Hnamed. unfold fetchClients, fetchProjects. run_eff.
  rewrite HaxC. cbn. rewrite HaxP. cbn. intros p Hin.
  eapply Permutation_in in Hin; [|apply Permutation_sym, sort_Permutation].
  apply in_map_iff in Hin as (wire & <- & Hwire). cbn.
  destruct (find _ (map mapClient clients)) as [c|] eqn:Hfind.
  - apply find_some in Hfind as [Hc Hid]. apply Z.eqb_eq in Hid.
    exists c, wire. repeat split; assumption.
  - exfalso. apply Hnamed in Hwire. apply in_map_iff in Hwire as (client & Hid & Hclient).
    rewrite find_None_iff in Hfind.
    specialize (Hfind (mapClient client) (in_map mapClient _ _ Hclient)).
    cbn in Hfind. apply Z.eqb_neq in Hfind. congruence.
Qed.

(** X6. Projects first: fetched while no client is cached, every project is
    cached without a client, and a later [fetchClients], whatever it
    receives, leaves the cached projects as they are. *)
Theorem fetchProjects_before_fetchClients_unresolved
    (axC : Request -> HttpResult (list TogglClient.t))
    (axP : Request -> HttpResult (list TogglProject.t))
    (workspaceId : Z) (w : World) (remote : list TogglProject.t) :
  TogglStore.clients (togglStore w) = [] ->
  axP (GET (WorkspaceProjects workspaceId) []) = Fulfilled (Some remote) ->
  let w1 := snd (fetchProjects axP workspaceId w) in
  let w2 := snd (fetchClients axC workspaceId w1) in
  List.length (TogglStore.projects (togglStore w1)) = List.length remote /\
  (forall p, In p (TogglStore.projects (togglStore w1)) -> Project.client p = None) /\
  TogglStore.projects (togglStore w2) = TogglStore.projects (togglStore w1).
Proof.
  intros Hempty HaxP. unfold fetchClients, fetchProjects. run_eff.
  rewrite HaxP. cbn. rewrite Hempty. split; [|split].
  - now rewrite sort_length, length_map.
  - intros p Hin.
    eapply Permutation_in in Hin; [|apply Permutation_sym, sort_Permutation].
    apply in_map_iff in Hin as (wire & <- & _). reflexivity.
  - destruct (axC (GET (WorkspaceClients workspaceId) [])) as [[data|]|reason]; reflexivity.
Qed.

Lemma compareProjectNames_consistent :
  ConsistentComparator localeCompare -> ConsistentComparator compareProjectNames.
Proof.
  intros Hcmp. split; unfold compareProjectNames.
  - intros a b. apply (cmp_antisym _ Hcmp).
  - intros a b c. apply (cmp_trans _ Hcmp).
Qed.

(** X7. With [localeCompare] a consistent comparator: two responses that list
    the same projects in different orders, no two of them with names that
    compare equal, leave the same cache. *)
Theorem fetchProjects_order_independent
    (ax ax' : Request -> HttpResult (list TogglProject.t)) (workspaceId : Z) (w : World)
    (remote remote' : list TogglProject.t) :
  ConsistentComparator localeCompare ->
  ax (GET (WorkspaceProjects workspaceId) []) = Fulfilled (Some remote) ->
  ax' (GET (WorkspaceProjects workspaceId) []) = Fulfilled (Some remote') ->
  Permutation remote remote' ->
  (forall a b, In a remote -> In b remote ->
     localeCompare (TogglProject.name a) (TogglProject.name b) = 0 -> a = b) ->
  togglStore (snd (fetchProjects ax workspaceId w)) =
    togglStore (snd (fetchProjects ax' workspaceId w)).
Proof.
  intros Hcmp Hax Hax' Hperm Hdistinct. unfold fetchProjects. run_eff.
  rewrite Hax, Hax'. cbn. unfold TogglStore.set_projects. f_equal.
  apply sort_order_independent.
  - now apply compareProjectNames_consistent.
  - now apply Permutation_map.
  - intros p q Hp Hq Hzero.
    apply in_map_iff in Hp as (a & <- & Ha). apply in_map_iff in Hq as (b & <- & Hb).
    f_equal. now apply Hdistinct.
Qed.

(** X8. With [localeCompare] a consistent comparator, the sort is stable in
    the cache: the cached projects whose names compare equal to a given name
    are the remote's projects with such names, in the remote's order. *)
Theorem fetchProjects_keeps_order_of_equal_names
    (ax : Request -> HttpResult (list TogglProject.t)) (workspaceId : Z) (w : World)
    (remote : list TogglProject.t) (name : string) :
  ConsistentComparator localeCompare ->
  ax (GET (WorkspaceProjects workspaceId) []) = Fulfilled (Some remote) ->
  filter (fun p => localeCompare (Project.name p) name =? 0)
    (TogglStore.projects (togglStore (snd (fetchProjects ax workspaceId w)))) =
  map (mapProject (TogglStore.clients (togglStore w)))
    (filter (fun wire => localeCompare (TogglProject.name wire) name =? 0) remote).
Proof.
  intros Hcmp Hax. unfold fetchProjects. run_eff. rewrite Hax. cbn.
  pose (z := {| Project.client := None; Project.color := EmptyString; Project.id := 0;
                Project.name := name; Project.workspace := {| Workspace.id := 0 |} |}).
  change (fun p => localeCompare (Project.name p) name =? 0)
    with (fun p => compareProjectNames p z =? 0).
  rewrite (sort_stable compareProjectNames (compareProjectNames_consistent Hcmp)).
  clear Hax. induction remote as [|wire remote IH]; cbn; [reflexivity|].
  unfold compareProjectNames at 1. cbn.
  destruct (localeCompare (TogglProject.name wire) name =? 0); cbn; now rewrite IH.
Qed.

End TogglServiceMore.

(** ** More on the service: time entries *)

Section TogglServiceEntries.
Context {RT : Runtime}.

(** X9. [mapTimeEntry] copies description, duration and id and parses the
    start.  The project it attaches is the first cached project with the
    entry's [project_id]: no earlier one has that id; there is none exactly
    when no cached project has it. *)
Theorem mapTimeEntry_project_lookup (entry : TogglTimeEntry.t) (projects : list Project.t) :
  let item := mapTimeEntry entry projects in
  TimeEntry.description item = TogglTimeEntry.description entry /\
  TimeEntry.duration item = TogglTimeEntry.duration entry /\
  TimeEntry.id item = TogglTimeEntry.id entry /\
  TimeEntry.start item = Date_parse (TogglTimeEntry.start entry) /\
  match TimeEntry.project item with
  | Some p =>
      Project.id p = TogglTimeEntry.project_id entry /\
      exists before after,
        projects = before ++ p :: after /\
        forall q, In q before -> Project.id q <> TogglTimeEntry.project_id entry
  | None =>
      forall q, In q projects -> Project.id q <> TogglTimeEntry.project_id entry
  end.
Proof.
  unfold mapTimeEntry.
  assert (Hproject :
    match find (fun project => Project.id project =? TogglTimeEntry.project_id entry) projects with
    | Some p =>
        Project.id p = TogglTimeEntry.project_id entry /\
        exists before after,
          projects = before ++ p :: after /\
          forall q, In q before -> Project.id q <> TogglTimeEntry.project_id entry
    | None =>
        forall q, In q projects -> Project.id q <> TogglTimeEntry.project_id entry
    end).
  { destruct (find _ projects) as [p|] eqn:Hfind.
    - apply find_split in Hfind as (before & after & Hsplit & Hid & Hbefore).
      split; [now apply Z.eqb_eq|]. exists before, after. split; [assumption|].
      intros q Hq. apply Z.eqb_neq. now apply Hbefore.
    - intros q Hq. apply Z.eqb_neq. revert q Hq. now apply find_None_iff. }
  destruct (TogglTimeEntry.stop entry); cbn; repeat split; exact Hproject.
Qed.

(** X10. [fetchActiveTimeEntry] issues exactly one request and never writes
    the cached clients and projects, nor the stop time of the draft.  Unlike
    [updateTimeEntry] it lets a failed request through: the call rejects with
    the request's error, the draft untouched. *)
Theorem fetchActiveTimeEntry_frame
    (ax : Request -> HttpResult TogglTimeEntry.t) (w : World) :
  let r := fetchActiveTimeEntry ax w in
  togglStore (snd r) = togglStore w /\
  TimeBookingStore.stop (timeBookingStore (snd r)) = TimeBookingStore.stop (timeBookingStore w) /\
  issued (snd r) = issued w ++ [GET MeTimeEntriesCurrent []] /\
  (forall reason, ax (GET MeTimeEntriesCurrent []) = Rejected reason ->
     fst r = Thrown (AxiosError reason) /\ timeBookingStore (snd r) = timeBookingStore w).
Proof.
  unfold fetchActiveTimeEntry, activeEntryUpdater. run_eff.
  destruct (ax (GET MeTimeEntriesCurrent [])) as [[running|]|reason]; cbn.
  - destruct (TimeEntry.project (mapTimeEntry running (TogglStore.projects (togglStore w))));
      cbn; (split; [reflexivity|]); (split; [reflexivity|]); (split; [reflexivity|]);
      intros reason' Hrejected; discriminate.
  - do 3 (split; [reflexivity|]). intros reason' Hrejected. discriminate.
  - do 3 (split; [reflexivity|]). intros reason' [= ->]. auto.
Qed.

(** X11. Asking twice is asking once: a second [fetchActiveTimeEntry] against
    the same answer ends like the first and leaves the stores as the first
    left them. *)
Theorem fetchActiveTimeEntry_idempotent
    (ax : Request -> HttpResult TogglTimeEntry.t) (w : World) :
  let r1 := fetchActiveTimeEntry ax w in
  let r2 := fetchActiveTimeEntry ax (snd r1) in
  fst r2 = fst r1 /\
  togglStore (snd r2) = togglStore (snd r1) /\
  timeBookingStore (snd r2) = timeBookingStore (snd r1).
Proof.
  unfold fetchActiveTimeEntry, activeEntryUpdater. run_eff.
  destruct (ax (GET MeTimeEntriesCurrent [])) as [[running|]|reason] eqn:Hax; cbn.
  - destruct (TimeEntry.project (mapTimeEntry running (TogglStore.projects (togglStore w))))
      as [project|] eqn:Hproject; cbn; rewrite ?Hproject; cbn; auto.
  - auto.
  - auto.
Qed.

(** X12. What a returned entry tells: the remote reported a running entry,
    the entry is its mapping, its project is a cached project, and the draft
    now holds the entry, its start as the day, and the remote's [project_id]
    as [projectId]. *)
Theorem fetchActiveTimeEntry_returned_entry
    (ax : Request -> HttpResult TogglTimeEntry.t) (w : World) (entry : TimeEntry.t) :
  let r := fetchActiveTimeEntry ax w in
  fst r = Returned (Some entry) ->
  exists running project,
    ax (GET MeTimeEntriesCurrent []) = Fulfilled (Some running) /\
    entry = mapTimeEntry running (TogglStore.projects (togglStore w)) /\
    TimeEntry.project entry = Some project /\
    In project (TogglStore.projects (togglStore w)) /\
    TimeBookingStore.entry (timeBookingStore (snd r)) = Some entry /\
    TimeBookingStore.day (timeBookingStore (snd r)) = TimeEntry.start entry /\
    TimeBookingStore.projectId (timeBookingStore (snd r)) =
      Some (TogglTimeEntry.project_id running).
Proof.
  unfold fetchActiveTimeEntry, activeEntryUpdater. run_eff.
  destruct (ax (GET MeTimeEntriesCurrent [])) as [[running|]|reason]; cbn;
    try discriminate.
  destruct (TimeEntry.project (mapTimeEntry running (TogglStore.projects (togglStore w))))
    as [project|] eqn:Hproject; cbn; [|discriminate].
  intros [= <-]. exists running, project.
  assert (Hfind :
    find (fun project => Project.id project =? TogglTimeEntry.project_id running)
      (TogglStore.projects (togglStore w)) = Some project).
  { rewrite <- Hproject. unfold mapTimeEntry. now destruct (TogglTimeEntry.stop running). }
  apply find_some in Hfind as [Hin Hid]. apply Z.eqb_eq in Hid.
  repeat split; try assumption. now rewrite Hid.
Qed.

(** X13. Projects first, active entry second: once [fetchProjects] has cached
    a response that lists the running entry's project, [fetchActiveTimeEntry]
    does not throw; it returns the entry, with that project attached, and
    writes the remote's [project_id] into the draft. *)
Theorem fetchProjects_then_fetchActiveTimeEntry
    (axP : Request -> HttpResult (list TogglProject.t))
    (axE : Request -> HttpResult TogglTimeEntry.t)
    (workspaceId : Z) (w : World)
    (remote : list TogglProject.t) (running : TogglTimeEntry.t) :
  axP (GET (WorkspaceProjects workspaceId) []) = Fulfilled (Some remote) ->
  axE (GET MeTimeEntriesCurrent []) = Fulfilled (Some running) ->
  In (TogglTimeEntry.project_id running) (map TogglProject.id remote) ->
  let w1 := snd (fetchProjects axP workspaceId w) in
  let r := fetchActiveTimeEntry axE w1 in
  exists entry project,
    fst r = Returned (Some entry) /\
    TimeEntry.id entry = TogglTimeEntry.id running /\
    TimeEntry.project entry = Some project /\
    Project.id project = TogglTimeEntry.project_id running /\
    TimeBookingStore.projectId (timeBookingStore (snd r)) =
      Some (TogglTimeEntry.project_id running).
Proof.
  intros HaxP HaxE Hlisted w1 r.
  set (cached := TogglStore.projects (togglStore w1)).
  assert (Hcached : exists p, In p cached /\ Project.id p = TogglTimeEntry.project_id running).
  { apply in_map_iff in Hlisted as (wire & Hid & Hwire).
    exists (mapProject (TogglStore.clients (togglStore w)) wire). split; [|exact Hid].
    subst cached w1. unfold fetchProjects. run_eff. rewrite HaxP. cbn.
    eapply Permutation_in; [apply sort_Permutation|]. now apply in_map. }
  destruct (find (fun project => Project.id project =? TogglTimeEntry.project_id running)
              cached) as [project|] eqn:Hfind.
  - assert (Hproject : TimeEntry.project (mapTimeEntry running cached) = Some project).
    { unfold mapTimeEntry. rewrite Hfind. now destruct (TogglTimeEntry.stop running). }
    apply find_some in Hfind as [_ Hid]. apply Z.eqb_eq in Hid.
    exists (mapTimeEntry running cached), project.
    subst r. unfold fetchActiveTimeEntry, activeEntryUpdater. run_eff.
    rewrite HaxE. cbn. fold cached. rewrite Hproject. cbn.
    repeat split; try assumption.
    + unfold mapTimeEntry. now destruct (TogglTimeEntry.stop running).
    + now rewrite Hid.
  - exfalso. destruct Hcached as (p & Hp & Hid).
    rewrite find_None_iff in Hfind. specialize (Hfind p Hp).
    apply Z.eqb_neq in Hfind. contradiction.
Qed.

(** X14. [fetchTimeEntriesOfDay] only reads: both stores are the same
    afterwards and one request went out.  A list is answered by as many
    entries (none for the empty list); a [null] body makes the call reject
    with a [TypeError], a rejected request with the request's error. *)
Theorem fetchTimeEntriesOfDay_reads_only
    (ax : Request -> HttpResult (list TogglTimeEntry.t)) (day : Date) (w : World) :
  let r := fetchTimeEntriesOfDay ax day w in
  sameStores w (snd r) /\
  issued (snd r) = issued w ++ [dayQuery day] /\
  match ax (dayQuery day) with
  | Fulfilled (Some received) =>
      exists entries,
        fst r = Returned entries /\ List.length entries = List.length received
  | Fulfilled None => fst r = Thrown TypeError
  | Rejected reason => fst r = Thrown (AxiosError reason)
  end.
Proof.
  unfold fetchTimeEntriesOfDay, sameStores. run_eff.
  destruct (ax (dayQuery day)) as [[received|]|reason]; cbn; repeat split.
  eexists. split; [reflexivity|]. now rewrite sort_length, length_map.
Qed.

(** X15. [updateTimeEntry] returns an entry exactly when the entry it was
    given has a project and the request for it was fulfilled with a body; the
    entry returned is then the mapping of that body against the cached
    projects.  A fulfilled request with a [null] body gives [null], like a
    failure. *)
Theorem updateTimeEntry_returns_entry_iff
    (ax : Request -> HttpResult TogglTimeEntry.t) (entry : TimeEntry.t) (w : World)
    (result : TimeEntry.t) :
  fst (updateTimeEntry ax entry w) = Returned (Some result) <->
  exists project data,
    TimeEntry.project entry = Some project /\
    ax (updateRequest project entry) = Fulfilled (Some data) /\
    result = mapTimeEntry data (TogglStore.projects (togglStore w)).
Proof.
  unfold updateTimeEntry. run_eff. split.
  - destruct (TimeEntry.project entry) as [project|]; cbn; [|discriminate].
    destruct (ax (updateRequest project entry)) as [[data|]|reason] eqn:Hax; cbn;
      try discriminate.
    intros [= <-]. exists project, data. auto.
  - intros (project & data & Hproject & Hax & ->).
    rewrite Hproject. cbn. rewrite Hax. reflexivity.
Qed.

(** X16. The request of [updateTimeEntry]: for an entry with a project, one
    [PUT] on the entry's path in the workspace of that project, with the
    entry as body, whatever the answer; for an entry without project,
    nothing is sent. *)
Theorem updateTimeEntry_requests
    (ax : Request -> HttpResult TogglTimeEntry.t) (entry : TimeEntry.t) (w : World) :
  issued (snd (updateTimeEntry ax entry w)) =
    match TimeEntry.project entry with
    | Some project =>
        issued w ++
        [PUT (WorkspaceTimeEntry (Workspace.id (Project.workspace project)) (TimeEntry.id entry))
             entry]
    | None => issued w
    end.
Proof.
  unfold updateTimeEntry. run_eff.
  destruct (TimeEntry.project entry) as [project|]; cbn; [|reflexivity].
  destruct (ax (updateRequest project entry)) as [[data|]|reason]; reflexivity.
Qed.

End TogglServiceEntries.

(** ** The shared instance *)

Lemma set_tokens_ax (tokens : list string) (o : Service.t) :
  Service.ax (fold_left (fun o token => Service.set_token token o) tokens o) = Service.ax o.
Proof.
  revert o. induction tokens as [|token tokens IH]; intros o; cbn; [reflexivity|].
  now rewrite IH.
Qed.

Lemma getInstances_shared (tokens : list string) :
  forall o,
    getInstances tokens {| heap := [o]; instance := Some 0%nat |} =
      (map (fun _ => 0%nat) tokens,
       {| heap := [fold_left (fun o token => Service.set_token token o) tokens o];
          instance := Some 0%nat |}).
Proof.
  induction tokens as [|token tokens IH]; intros o; cbn; [reflexivity|].
  now rewrite IH.
Qed.

(** X17. However often [getInstance] is called, and with whatever tokens, one
    object is constructed: every call hands out the same reference, and the
    object behind it has the base URL of the API and the token of the last
    call, so that everyone holding the reference authenticates with that
    token and the password [api_token]. *)
Theorem getInstances_singleton (tokens : list string) (last : string) :
  let r := getInstances (tokens ++ [last]) noInstance in
  fst r = map (fun _ => 0%nat) (tokens ++ [last]) /\
  instance (snd r) = Some 0%nat /\
  heap (snd r) = [new_TogglService last] /\
  option_map getAuth (nth_error (heap (snd r)) 0) =
    Some {| username := last; password := "api_token" |}.
Proof.
  assert (Hrun : getInstances (tokens ++ [last]) noInstance =
            (map (fun _ => 0%nat) (tokens ++ [last]),
             {| heap := [new_TogglService last]; instance := Some 0%nat |})).
  { destruct tokens as [|first tokens]; cbn; [reflexivity|].
    rewrite getInstances_shared. f_equal. f_equal. f_equal.
    rewrite fold_left_app. cbn. unfold Service.set_token at 1. cbn.
    now rewrite set_tokens_ax. }
  cbn zeta. rewrite Hrun. cbn. auto.
Qed.

(** ** A response that is already sorted *)

Section SortedInput.
Context {A : Type} (comparefn : A -> A -> Z).
Hypothesis consistent : ConsistentComparator comparefn.

Lemma insert_last (x : A) (l : list A) :
  Forall (fun y => inOrder comparefn y x) l -> insert comparefn x l = l ++ [x].
Proof.
  induction 1 as [|y l Hyx _ IH]; cbn; [reflexivity|].
  destruct (Z.ltb_spec (comparefn x y) 0) as [Hlt|_].
  - apply (cmp_antisym _ consistent) in Hlt. unfold inOrder in Hyx. lia.
  - now rewrite IH.
Qed.

Lemma sort_sorted_id (l : list A) :
  StronglySorted (inOrder comparefn) l -> sort comparefn l = l.
Proof.
  unfold sort. intros Hsorted.
  assert (Hacc : forall acc, StronglySorted (inOrder comparefn) (acc ++ l) ->
            fold_left (fun acc x => insert comparefn x acc) l acc = acc ++ l).
  { clear Hsorted. induction l as [|x l IH]; intros acc Hs; cbn.
    - now rewrite app_nil_r.
    - assert (Hlast : insert comparefn x acc = acc ++ [x]).
      { apply insert_last. clear IH.
        induction acc as [|y acc IHacc]; [constructor|].
        cbn in Hs. apply StronglySorted_inv in Hs as [Hs Hy].
        constructor; [|now apply IHacc].
        rewrite Forall_forall in Hy. apply Hy, in_or_app. right. now left. }
      rewrite Hlast, IH; rewrite <- app_assoc; [reflexivity|exact Hs]. }
  apply (Hacc []). exact Hsorted.
Qed.

End SortedInput.

Section TogglServiceSorted.
Context {RT : Runtime}.

(** X18. With [localeCompare] a consistent comparator: a response whose
    projects already ascend by name is cached in the order it came in. *)
Theorem fetchProjects_sorted_response_kept
    (ax : Request -> HttpResult (list TogglProject.t)) (workspaceId : Z) (w : World)
    (remote : list TogglProject.t) :
  ConsistentComparator localeCompare ->
  ax (GET (WorkspaceProjects workspaceId) []) = Fulfilled (Some remote) ->
  StronglySorted
    (fun a b => localeCompare (TogglProject.name a) (TogglProject.name b) <= 0) remote ->
  TogglStore.projects (togglStore (snd (fetchProjects ax workspaceId w))) =
    map (mapProject (TogglStore.clients (togglStore w))) remote.
Proof.
  intros Hcmp Hax Hsorted. unfold fetchProjects. run_eff. rewrite Hax. cbn.
  apply sort_sorted_id; [now apply compareProjectNames_consistent|].
  clear Hax. induction Hsorted as [|a remote _ IH Ha]; cbn; constructor; [exact IH|].
  rewrite Forall_map. eapply Forall_impl; [|exact Ha]. intros b Hab. exact Hab.
Qed.

End TogglServiceSorted.

(** ** The model at work *)

Lemma String_compare_le_trans (a : string) :
  forall b c, String.compare a b <> Gt -> String.compare b c <> Gt -> String.compare a c <> Gt.
Proof.
  induction a as [|x a IH]; intros [|y b] [|z c]; simpl; try congruence.
  unfold Ascii.compare.
  destruct (N.compare_spec (N_of_ascii x) (N_of_ascii y)) as [Hxy|Hxy|Hxy];
    destruct (N.compare_spec (N_of_ascii y) (N_of_ascii z)) as [Hyz|Hyz|Hyz];
    destruct (N.compare_spec (N_of_ascii x) (N_of_ascii z)) as [Hxz|Hxz|Hxz];
    try congruence; try lia.
  apply IH.
Qed.

Lemma ordinalCompare_consistent : ConsistentComparator ordinalCompare.
Proof.
  split; unfold ordinalCompare.
  - intros a b. rewrite (String.compare_antisym a b).
    destruct (String.compare b a); simpl; lia.
  - intros a b c Hab Hbc.
    assert (Hac : String.compare a c <> Gt).
    { apply (String_compare_le_trans a b c).
      - destruct (String.compare a b); [discriminate|discriminate|lia].
      - destruct (String.compare b c); [discriminate|discriminate|lia]. }
    destruct (String.compare a c); [lia|lia|congruence].
Qed.

#[local] Existing Instance testRuntime.

(** A response of four projects: the list returned is empty, the cache has
    the four. *)
Lemma fetchProjects_returns_empty_list_witness :
  let r := fetchProjects (fun _ => Fulfilled (Some remoteProjects)) 7 testWorld in
  fst r = Returned [] /\
  map Project.id (TogglStore.projects (togglStore (snd r))) = [2; 1; 9; 3].
Proof.
  split.
  - exact (proj1 (proj2 (fetchProjects_returns_empty_list
                           (fun _ => Fulfilled (Some remoteProjects)) 7 testWorld)
                    (Some remoteProjects) eq_refl)).
  - reflexivity.
Defined.

(** A wire record whose [stop] key holds [null]: no non-null value is there,
    and yet the mapped entry has a [stop]. *)
Lemma mapTimeEntry_null_stop_counterexample :
  let entry := wireEntry 1234 2 "545" (Some JNull) in
  ~ (TimeEntry.stop (mapTimeEntry entry testProjects) <> None <->
     exists s, TogglTimeEntry.stop entry = Some (JString s)).
Proof.
  intros entry [Hset _].
  destruct Hset as [s Hs]; simpl in *; discriminate.
Qed.

(** The same response under code-unit order, which is a consistent
    comparator. *)
Lemma fetchProjects_cache_sorted_witness :
  let cached :=
    TogglStore.projects
      (togglStore (snd (fetchProjects (fun _ => Fulfilled (Some remoteProjects)) 7 testWorld))) in
  StronglySorted (fun p1 p2 => ordinalCompare (Project.name p1) (Project.name p2) <= 0) cached /\
  Permutation (map (mapProject [clientA]) remoteProjects) cached.
Proof.
  exact (fetchProjects_cache_sorted (fun _ => Fulfilled (Some remoteProjects)) 7 testWorld
           remoteProjects ordinalCompare_consistent eq_refl).
Defined.

(** A remote that answers 500. *)
Lemma updateTimeEntry_failure_returns_null_witness :
  let r := updateTimeEntry (fun _ => Rejected (BadStatus 500)) runningEntry testWorld in
  fst r = Returned None /\
  togglStore (snd r) = togglStore testWorld /\
  timeBookingStore (snd r) = timeBookingStore testWorld.
Proof.
  apply (updateTimeEntry_failure_returns_null (fun _ => Rejected (BadStatus 500))
           runningEntry testWorld).
  intros project _. exists (BadStatus 500). reflexivity.
Defined.

(** A running entry of project 2, which is cached. *)
Lemma fetchActiveTimeEntry_overwrites_draft_witness :
  let r := fetchActiveTimeEntry (fun _ => Fulfilled (Some (wireEntry 1234 2 "545" None)))
             testWorld in
  togglStore (snd r) = togglStore testWorld /\
  fst r = Returned (Some runningEntry) /\
  overwrittenBy runningEntry (timeBookingStore testWorld) (timeBookingStore (snd r)).
Proof.
  apply (fetchActiveTimeEntry_overwrites_draft
           (fun _ => Fulfilled (Some (wireEntry 1234 2 "545" None))) testWorld
           (Some (wireEntry 1234 2 "545" None)) eq_refl).
  intros running [= <-]. discriminate.
Defined.

(** C6. The claim has [fetchActiveTimeEntry] overwrite [day], [description],
    [start], [entry] and [projectId] of the draft whenever a running entry
    exists.  The code does not, for a running entry of project 5 while the
    cache holds projects 1, 2 and 3: reading [entry.project.id] throws a
    [TypeError], the entry is not returned, and the draft is left as it was,
    none of the five fields written. *)
Lemma fetchActiveTimeEntry_unknown_project_fails :
  let running := wireEntry 1234 5 "545" None in
  let r := fetchActiveTimeEntry (fun _ => Fulfilled (Some running)) testWorld in
  fst r = Thrown TypeError /\
  fst r <> Returned (Some (mapTimeEntry running testProjects)) /\
  timeBookingStore (snd r) = timeBookingStore testWorld /\
  ~ overwrittenBy (mapTimeEntry running testProjects)
      (timeBookingStore testWorld) (timeBookingStore (snd r)).
Proof.
  intros running r. split; [reflexivity|]. split; [discriminate|].
  split; [reflexivity|]. intros (Hday & _). discriminate.
Qed.

(** The same entry: the call rejects with a [TypeError]. *)
Lemma fetchActiveTimeEntry_throws_iff_project_unknown_witness :
  let running := wireEntry 1234 5 "545" None in
  let r := fetchActiveTimeEntry (fun _ => Fulfilled (Some running)) testWorld in
  fst r = Thrown TypeError /\ timeBookingStore (snd r) = timeBookingStore testWorld.
Proof.
  intros running r.
  destruct (fetchActiveTimeEntry_throws_iff_project_unknown
              (fun _ => Fulfilled (Some running)) testWorld running eq_refl)
    as (Hiff & Hframe & _).
  assert (Hunknown : forall project, In project (TogglStore.projects (togglStore testWorld)) ->
            Project.id project <> TogglTimeEntry.project_id running).
  { intros project [<-|[<-|[<-|[]]]]; discriminate. }
  split; [apply Hiff, Hunknown|apply Hframe, Hunknown].
Defined.

(** Three entries, the running one received first and returned last. *)
Lemma fetchTimeEntriesOfDay_query_and_order_witness :
  let r := fetchTimeEntriesOfDay (fun _ => Fulfilled (Some receivedEntries)) 0 testWorld in
  issued (snd r) =
    [GET MeTimeEntries [("start_date"%string, "00"%string); ("end_date"%string, "01"%string)]] /\
  exists entries,
    fst r = Returned entries /\
    map TimeEntry.id entries = [3; 2; 1] /\
    StronglySorted startsInOrder entries.
Proof.
  destruct (fetchTimeEntriesOfDay_query_and_order
              (fun _ => Fulfilled (Some receivedEntries)) 0 testWorld receivedEntries eq_refl)
    as (Hissued & _ & entries & Hreturned & _ & _ & Hsorted).
  split; [exact Hissued|].
  exists entries. split; [exact Hreturned|]. split; [|exact Hsorted].
  simpl in Hreturned. injection Hreturned as <-. reflexivity.
Defined.

(** 09:00 on some day, and back. *)
Lemma formatTime_combineDateWithTime_witness :
  exists combined,
    combineDateWithTime 123456789012 "09:00" = Some combined /\
    formatTime combined = "09:00"%string.
Proof.
  destruct (formatTime_combineDateWithTime 123456789012 "09:00" 9 0 eq_refl)
    as (combined & Hcombined & Hformat & _).
  exists combined. split; assumption.
Defined.

(** The two commits of the form's tests: entry 1234 with the start edited to
    09:00, without and with a stop at 10:00. *)
Lemma commit_stops_or_updates_witness :
  let now := 123456789012 in
  let edited := BookingStore.set_timeStart "09:00" (runningDraft now "08:15") in
  commit edited = [StopTimeEntry 1234] /\
  commit (BookingStore.set_timeStop "10:00" edited) =
    [UpdateTimeEntry
       {| UpdatePayload.day := now;
          UpdatePayload.projectId := Some 2;
          UpdatePayload.timeEntryDescription := "Running Entry 1";
          UpdatePayload.timeEntryId := 1234;
          UpdatePayload.timeStart := 123411600000;
          UpdatePayload.timeStop := 123415200000 |}] /\
  combineDateWithTime now "09:00" = Some 123411600000 /\
  combineDateWithTime now "10:00" = Some 123415200000.
Proof.
  intros now edited. split.
  - apply (proj1 (commit_stops_or_updates edited 1234)).
    split; [reflexivity|]. split; [discriminate|reflexivity].
  - destruct (proj2 (commit_stops_or_updates (BookingStore.set_timeStop "10:00" edited) 1234)
                123411600000 123415200000) as (Hcommit & Hstart & Hstop).
    + split; [reflexivity|]. split; [reflexivity|].
      exists "10:00"%string. split; reflexivity.
    + split; [exact Hcommit|]. split; reflexivity.
Defined.

(** The form's test: start 09:00, then stop 08:59. *)
Lemma stop_before_start_refused_witness :
  let f := inputTimeStop (inputTimeStart (render (runningDraft 123456789012 "08:15")) "09:00")
             "08:59" in
  stopStatusError f = true /\
  startStatusError f = false /\
  booking f = BookingStore.set_timeStart "09:00" (runningDraft 123456789012 "08:15") /\
  actionDisabled f = true /\
  clickAction f = [].
Proof.
  eapply (stop_before_start_refused (render (runningDraft 123456789012 "08:15"))
            "09:00" "08:59").
  - reflexivity.
  - reflexivity.
  - reflexivity.
  - vm_compute. reflexivity.
Defined.

(** ** The further properties at work *)

Lemma fetchClients_returns_cached_witness :
  let r := fetchClients (fun _ => Fulfilled (Some remoteClients)) 7 emptyWorld in
  fst r = Returned (TogglStore.clients (togglStore (snd r))) /\
  map Client.id (TogglStore.clients (togglStore (snd r))) = [1; 2].
Proof.
  destruct (fetchClients_returns_cached (fun _ => Fulfilled (Some remoteClients)) 7 emptyWorld
              remoteClients eq_refl) as (Hreturned & Hids & _).
  split; [exact Hreturned|exact Hids].
Defined.

Lemma fetchClients_without_data_witness :
  let r := fetchClients (fun _ => Fulfilled None) 7 testWorld in
  sameStores testWorld (snd r) /\ fst r = Returned [].
Proof.
  apply (fetchClients_without_data (fun _ => Fulfilled None) 7 testWorld).
  intros data. discriminate.
Defined.

Lemma fetchProjects_frame_witness :
  let r := fetchProjects (fun _ => Rejected NetworkError) 7 testWorld in
  fst r = Thrown (AxiosError NetworkError) /\ togglStore (snd r) = togglStore testWorld.
Proof.
  destruct (fetchProjects_frame (fun _ => Rejected NetworkError) 7 testWorld)
    as (_ & _ & _ & Hkept & Hrejected).
  split; [apply Hrejected; reflexivity|apply Hkept; intros data; discriminate].
Defined.

Lemma fetchProjects_clients_come_from_cache_witness :
  exists wire,
    In wire remoteProjects /\ TogglProject.id wire = 2 /\
    TogglProject.client_id wire = Client.id clientA.
Proof.
  destruct (fetchProjects_clients_come_from_cache
              (fun _ => Fulfilled (Some remoteProjects)) 7 testWorld remoteProjects
              (mapProject [clientA] (wireProject 2 "Beta")) eq_refl)
    as (wire & Hwire & Hid & _ & _ & _ & _ & Hclient).
  - left. reflexivity.
  - exists wire. split; [exact Hwire|]. split; [now symmetry|now symmetry].
Defined.

Lemma fetchClients_then_fetchProjects_resolves_witness :
  let w1 := snd (fetchClients (fun _ => Fulfilled (Some remoteClients)) 7 emptyWorld) in
  let w2 := snd (fetchProjects (fun _ => Fulfilled (Some remoteProjects)) 7 w1) in
  Forall (fun p => exists c, Project.client p = Some c /\ Client.id c = 1)
    (TogglStore.projects (togglStore w2)).
Proof.
  intros w1 w2. apply Forall_forall. intros p Hp.
  destruct (fetchClients_then_fetchProjects_resolves
              (fun _ => Fulfilled (Some remoteClients))
              (fun _ => Fulfilled (Some remoteProjects)) 7 emptyWorld
              remoteClients remoteProjects eq_refl eq_refl)
    with (p := p) as (c & wire & Hclient & _ & Hwire & _ & Hid).
  - intros wire [<-|[<-|[<-|[<-|[]]]]]; left; reflexivity.
  - exact Hp.
  - exists c. split; [exact Hclient|]. rewrite Hid.
    destruct Hwire as [<-|[<-|[<-|[<-|[]]]]]; reflexivity.
Defined.

Lemma fetchProjects_before_fetchClients_unresolved_witness :
  let w1 := snd (fetchProjects (fun _ => Fulfilled (Some remoteProjects)) 7 emptyWorld) in
  let w2 := snd (fetchClients (fun _ => Fulfilled (Some remoteClients)) 7 w1) in
  map Project.client (TogglStore.projects (togglStore w2)) = [None; None; None; None] /\
  TogglStore.projects (togglStore w2) = TogglStore.projects (togglStore w1).
Proof.
  destruct (fetchProjects_before_fetchClients_unresolved
              (fun _ => Fulfilled (Some remoteClients))
              (fun _ => Fulfilled (Some remoteProjects)) 7 emptyWorld remoteProjects
              eq_refl eq_refl) as (_ & _ & Hkept).
  split; [reflexivity|exact Hkept].
Defined.

Lemma fetchProjects_order_independent_witness :
  togglStore (snd (fetchProjects (fun _ => Fulfilled (Some distinctProjects)) 7 testWorld)) =
  togglStore
    (snd (fetchProjects (fun _ => Fulfilled (Some (rev distinctProjects))) 7 testWorld)).
Proof.
  apply (fetchProjects_order_independent
           (fun _ => Fulfilled (Some distinctProjects))
           (fun _ => Fulfilled (Some (rev distinctProjects))) 7 testWorld
           distinctProjects (rev distinctProjects)).
  - exact ordinalCompare_consistent.
  - reflexivity.
  - reflexivity.
  - apply Permutation_rev.
  - intros a b [<-|[<-|[<-|[]]]] [<-|[<-|[<-|[]]]] Hzero;
      try reflexivity; cbv in Hzero; discriminate.
Defined.

Lemma fetchProjects_keeps_order_of_equal_names_witness :
  map Project.id
    (filter (fun p => ordinalCompare (Project.name p) "alpha" =? 0)
       (TogglStore.projects
          (togglStore (snd (fetchProjects (fun _ => Fulfilled (Some remoteProjects)) 7
                              testWorld))))) = [1; 9].
Proof.
  exact (f_equal (map Project.id)
           (fetchProjects_keeps_order_of_equal_names (RT := testRuntime)
              (fun _ => Fulfilled (Some remoteProjects)) 7 testWorld remoteProjects "alpha"
              ordinalCompare_consistent eq_refl)).
Defined.

Lemma fetchActiveTimeEntry_frame_witness :
  let r := fetchActiveTimeEntry (fun _ => Rejected (BadStatus 403)) testWorld in
  fst r = Thrown (AxiosError (BadStatus 403)) /\
  timeBookingStore (snd r) = timeBookingStore testWorld.
Proof.
  destruct (fetchActiveTimeEntry_frame (fun _ => Rejected (BadStatus 403)) testWorld)
    as (_ & _ & _ & Hrejected).
  apply Hrejected. reflexivity.
Defined.

Lemma fetchActiveTimeEntry_returned_entry_witness :
  let r := fetchActiveTimeEntry (fun _ => Fulfilled (Some (wireEntry 1234 2 "545" None)))
             testWorld in
  TimeBookingStore.projectId (timeBookingStore (snd r)) = Some 2 /\
  TimeBookingStore.entry (timeBookingStore (snd r)) = Some runningEntry.
Proof.
  destruct (fetchActiveTimeEntry_returned_entry
              (fun _ => Fulfilled (Some (wireEntry 1234 2 "545" None))) testWorld
              runningEntry eq_refl)
    as (running & project & Hax & _ & _ & _ & Hentry & _ & Hid).
  injection Hax as <-. split; [exact Hid|exact Hentry].
Defined.

Lemma fetchProjects_then_fetchActiveTimeEntry_witness :
  let w1 := snd (fetchProjects (fun _ => Fulfilled (Some remoteProjects)) 7 emptyWorld) in
  let r := fetchActiveTimeEntry (fun _ => Fulfilled (Some (wireEntry 1234 2 "545" None))) w1 in
  exists entry,
    fst r = Returned (Some entry) /\
    TimeBookingStore.projectId (timeBookingStore (snd r)) = Some 2.
Proof.
  destruct (fetchProjects_then_fetchActiveTimeEntry
              (fun _ => Fulfilled (Some remoteProjects))
              (fun _ => Fulfilled (Some (wireEntry 1234 2 "545" None))) 7 emptyWorld
              remoteProjects (wireEntry 1234 2 "545" None) eq_refl eq_refl)
    as (entry & project & Hreturned & _ & _ & _ & Hid).
  - right. right. left. reflexivity.
  - exists entry. split; [exact Hreturned|exact Hid].
Defined.

Lemma fetchProjects_sorted_response_kept_witness :
  map Project.id
    (TogglStore.projects
       (togglStore
          (snd (fetchProjects
                  (fun _ => Fulfilled (Some [wireProject 2 "Beta"; wireProject 1 "alpha";
                                             wireProject 9 "alpha"; wireProject 3 "zeta"]))
                  7 testWorld)))) = [2; 1; 9; 3].
Proof.
  refine (f_equal (map Project.id)
            (fetchProjects_sorted_response_kept (RT := testRuntime)
               (fun _ => Fulfilled (Some [wireProject 2 "Beta"; wireProject 1 "alpha";
                                          wireProject 9 "alpha"; wireProject 3 "zeta"]))
               7 testWorld _ ordinalCompare_consistent eq_refl _)).
  repeat constructor; cbv; discriminate.
Defined.
